(** * todoapp backend: repositories, token service and item handlers

    A shallow embedding of [backend/cruds/item.py], [backend/cruds/user.py],
    [backend/security/auth.py] and the item handlers of
    [backend/routers/item.py], with the table declarations of
    [backend/models] and the request schemas of [backend/schemas].

    The persistence store (SQLAlchemy session over SQLite) is modelled as
    explicit state: the rows the open transaction sees, the rows of the last
    commit, the unit of work not flushed yet, and a schedule of store faults.
    Every coroutine of the source is a computation in a state-and-exception
    monad over that session. *)

From Stdlib Require Import ZArith List String Ascii Bool Lia Permutation.
Import ListNotations.

#[local] Open Scope string_scope.
#[local] Open Scope Z_scope.

(** ** Values *)

(** [datetime]: a naive datetime value (one without [tzinfo]), as a number of
    units since the epoch.  The dates of an item are only stored and handed
    back, so their unit does not matter.  Where the token service is given a
    [datetime], it is a reading of the clock in whole seconds, the unit of
    the [exp] claim; the clock itself reads microseconds and has its own type
    [instant] below, as have the values that carry a [tzinfo]
    ([pydatetime]). *)
Definition datetime := Z.

Definition timedelta_hours (h : Z) : Z := h * 3600.

(** Values held by the dictionaries of the source ([model_dump()], the claims
    of a token). *)
Inductive value :=
| VNone
| VInt (n : Z)
| VStr (s : string)
| VDatetime (d : datetime).

Definition pydict := list (string * value).

Fixpoint dict_get (d : pydict) (key : string) : option value :=
  match d with
  | [] => None
  | (k, v) :: d' => if String.eqb k key then Some v else dict_get d' key
  end.

Definition dict_keys (d : pydict) : list string := map fst d.

Definition mem_string (x : string) (l : list string) : bool :=
  existsb (String.eqb x) l.

Definition of_opt_int (o : option Z) : value :=
  match o with Some n => VInt n | None => VNone end.

Definition of_opt_datetime (o : option datetime) : value :=
  match o with Some d => VDatetime d | None => VNone end.

(** ** Exceptions *)

Inductive exn :=
| OperationalError          (* the store could not be reached *)
| IntegrityError            (* a constraint of the schema is violated *)
| FlushError                (* NULL written to a primary key *)
| StaleDataError            (* UPDATE of a row that is gone *)
| InvalidRequestError       (* refresh of a row that is gone *)
| MultipleResultsFound      (* scalar_one_or_none on several rows *)
| ValidationError           (* pydantic model_validate *)
| TypeError
| AttributeError (msg : string)
| ExpiredSignatureError
| InvalidSignatureError
| DecodeError
| InvalidAlgorithmError
| HTTPException (status_code : Z) (detail : string).

Inductive res (A : Type) :=
| Ok (a : A)
| Raise (e : exn).
Arguments Ok {A} a.
Arguments Raise {A} e.

(** ** Schemas ([backend/schemas]) *)

Module UserSchema.
Record t := mk {
  user_id : string;
  name : string;
  password : string;
  model_fields_set : list string
}.
Definition fields : list string := ["user_id"; "name"; "password"].
End UserSchema.

Module ItemSchema.
Record t := mk {
  item_id : option Z;
  task_name : string;
  user_id : string;
  expire_date : datetime;
  finished_date : option datetime;
  model_fields_set : list string
}.
Definition fields : list string :=
  ["item_id"; "task_name"; "user_id"; "expire_date"; "finished_date"].
End ItemSchema.

(** ** ORM instances ([backend/models]): every attribute may be [None] *)

Module UserModel.
Record t := mk {
  user_id : option string;
  name : option string;
  password : option string
}.
Definition empty : t := mk None None None.
End UserModel.

Module ItemModel.
Record t := mk {
  item_id : option Z;
  task_name : option string;
  user_id : option string;
  expire_date : option datetime;
  finished_date : option datetime
}.
Definition empty : t := mk None None None None None.
End ItemModel.

(** ** Table rows: the NOT NULL columns are not optional *)

Module UserRow.
Record t := mk {
  user_id : string;      (* String(20), primary key *)
  name : string;         (* String(40), nullable=False *)
  password : string      (* String(100), nullable=False *)
}.
End UserRow.

Module ItemRow.
Record t := mk {
  item_id : Z;           (* Integer, primary key, autoincrement *)
  task_name : string;    (* String(100), nullable=False *)
  user_id : string;      (* String(20), ForeignKey('todo_user.user_id'),
                            nullable=False *)
  expire_date : datetime;            (* nullable=False *)
  finished_date : option datetime    (* nullable=True *)
}.
End ItemRow.

(** ** Table declarations that decide what a flush does *)

Inductive referential_action := SET_NULL | CASCADE | NO_ACTION.

(** [models/item.py], line 11: [ForeignKey('todo_user.user_id',
    ondelete='SET NULL')] on a column declared [nullable=False]. *)
Definition Item_user_id_ondelete : referential_action := SET_NULL.
Definition Item_user_id_nullable : bool := false.

(** [models/user.py], line 12: [relationship("Item", back_populates="user")]
    names no cascade, so the ORM default ("save-update, merge") applies and
    deleting a user does not delete its items. *)
Definition User_items_cascade_delete : bool := false.

(** [tododb.py]: the engine is created without switching SQLite's foreign-key
    enforcement on, so the database itself checks no reference. *)
Definition sqlite_foreign_keys : bool := false.

(** ** The session *)

Record DB := mkDB {
  todo_user : list UserRow.t;
  todo_item : list ItemRow.t
}.

(** The unit of work: what [session.add], [session.delete] and attribute
    assignment on a loaded instance leave for the next flush. *)
Inductive uow :=
| Add_item (o : ItemModel.t)
| Add_user (o : UserModel.t)
| Upd_item (pk : Z) (o : ItemModel.t)
| Upd_user (pk : string) (o : UserModel.t)
| Del_item (pk : Z)
| Del_user (pk : string).

Record Session := mkSession {
  db : DB;                 (* the rows as the open transaction sees them *)
  committed : DB;          (* the rows as of the last commit *)
  pending : list uow;      (* the unit of work, oldest first *)
  faults : list bool       (* one entry per round trip still to come:
                              [true] makes that round trip fail *)
}.

(** A session as [get_db_session] hands it to a request. *)
Definition new_session (d : DB) (fs : list bool) : Session :=
  mkSession d d [] fs.

Definition M (A : Type) := Session -> res A * Session.

Definition ret {A} (a : A) : M A := fun s => (Ok a, s).

Definition raise {A} (e : exn) : M A := fun s => (Raise e, s).

Definition bind {A B} (m : M A) (f : A -> M B) : M B :=
  fun s => match m s with
           | (Ok a, s') => f a s'
           | (Raise e, s') => (Raise e, s')
           end.

(** [try: m  except Exception as e: h e] *)
Definition try_except {A} (m : M A) (h : exn -> M A) : M A :=
  fun s => match m s with
           | (Ok a, s') => (Ok a, s')
           | (Raise e, s') => h e s'
           end.

Definition lift {A} (r : res A) : M A := fun s => (r, s).

Declare Scope py_scope.
Delimit Scope py_scope with py.
Notation "x <- m ;; k" := (bind m (fun x => k))
  (at level 61, m at next level, right associativity) : py_scope.
Notation "m ;;; k" := (bind m (fun _ => k))
  (at level 61, right associativity) : py_scope.
#[local] Open Scope py_scope.

(** ** Flushing the unit of work *)

Definition has_item (d : DB) (pk : Z) : bool :=
  existsb (fun r => ItemRow.item_id r =? pk) (todo_item d).

Definition has_user (d : DB) (pk : string) : bool :=
  existsb (fun r => String.eqb (UserRow.user_id r) pk) (todo_user d).

(** The rowid SQLite gives to a row inserted without one: one more than the
    largest in use, 1 in an empty table (the 64-bit ceiling is not modelled). *)
Definition next_rowid (d : DB) : Z :=
  match map ItemRow.item_id (todo_item d) with
  | [] => 1
  | x :: xs => 1 + fold_left Z.max xs x
  end.

(** The column values of an INSERT or UPDATE; a NOT NULL column left at
    [None] fails the statement. *)
Definition item_row_of (pk : Z) (o : ItemModel.t) : res ItemRow.t :=
  match ItemModel.task_name o, ItemModel.user_id o, ItemModel.expire_date o with
  | Some tn, Some uid, Some ed =>
      Ok (ItemRow.mk pk tn uid ed (ItemModel.finished_date o))
  | _, _, _ => Raise IntegrityError
  end.

Definition user_row_of (pk : string) (o : UserModel.t) : res UserRow.t :=
  match UserModel.name o, UserModel.password o with
  | Some n, Some p => Ok (UserRow.mk pk n p)
  | _, _ => Raise IntegrityError
  end.

Definition owned_by (uid : string) (r : ItemRow.t) : bool :=
  String.eqb (ItemRow.user_id r) uid.

(** One pending operation against the rows of the transaction.  The second
    component is the rowid of the inserted item, if the operation is one.
    A table is the list of its rows in the order they were inserted; SQLite
    lists a table by rowid, so the order of a list of rows says nothing about
    the order of an answer, and the statements below about whole answers are
    made up to order.  An [item_id] is any integer here; the store takes
    those of the range [int64] only. *)
Definition apply_uow (d : DB) (op : uow) : res (DB * option Z) :=
  match op with
  | Add_item o =>
      let pk := match ItemModel.item_id o with
                | Some n => n
                | None => next_rowid d
                end in
      if has_item d pk then Raise IntegrityError
      else
        match item_row_of pk o with
        | Raise e => Raise e
        | Ok row =>
            if sqlite_foreign_keys && negb (has_user d (ItemRow.user_id row))
            then Raise IntegrityError
            else Ok (mkDB (todo_user d) (todo_item d ++ [row]), Some pk)
        end
  | Add_user o =>
      match UserModel.user_id o with
      | None => Raise FlushError
      | Some pk =>
          if has_user d pk then Raise IntegrityError
          else
            match user_row_of pk o with
            | Raise e => Raise e
            | Ok row => Ok (mkDB (todo_user d ++ [row]) (todo_item d), None)
            end
      end
  | Upd_item pk o =>
      if negb (has_item d pk) then Raise StaleDataError
      else
        match ItemModel.item_id o with
        | None => Raise FlushError
        | Some pk' =>
            if negb (pk' =? pk) && has_item d pk' then Raise IntegrityError
            else
              match item_row_of pk' o with
              | Raise e => Raise e
              | Ok row =>
                  Ok (mkDB (todo_user d)
                        (map (fun r => if ItemRow.item_id r =? pk
                                       then row else r) (todo_item d)),
                      None)
              end
        end
  | Upd_user pk o =>
      if negb (has_user d pk) then Raise StaleDataError
      else
        match UserModel.user_id o with
        | None => Raise FlushError
        | Some pk' =>
            if negb (String.eqb pk' pk) && has_user d pk'
            then Raise IntegrityError
            else
              match user_row_of pk' o with
              | Raise e => Raise e
              | Ok row =>
                  Ok (mkDB (map (fun r => if String.eqb (UserRow.user_id r) pk
                                          then row else r) (todo_user d))
                        (todo_item d),
                      None)
              end
        end
  | Del_item pk =>
      Ok (mkDB (todo_user d)
            (filter (fun r => negb (ItemRow.item_id r =? pk)) (todo_item d)),
          None)
  | Del_user pk =>
      let others :=
        filter (fun r => negb (String.eqb (UserRow.user_id r) pk))
               (todo_user d) in
      if User_items_cascade_delete
      then Ok (mkDB others
                 (filter (fun r => negb (owned_by pk r)) (todo_item d)),
               None)
      else
        (* without a delete cascade the unit of work first writes NULL to the
           [user_id] of every item of the user; the column is NOT NULL *)
        match filter (owned_by pk) (todo_item d) with
        | [] => Ok (mkDB others (todo_item d), None)
        | _ :: _ => Raise IntegrityError
        end
  end.

Fixpoint flush_ops (d : DB) (last : option Z) (ops : list uow)
  : res (DB * option Z) :=
  match ops with
  | [] => Ok (d, last)
  | op :: ops' =>
      match apply_uow d op with
      | Raise e => Raise e
      | Ok (d', k) =>
          flush_ops d' (match k with Some _ => k | None => last end) ops'
      end
  end.

(** ** Session operations *)

(** One round trip to the store, failing when the schedule says so. *)
Definition tick : M unit :=
  fun s =>
    match faults s with
    | [] => (Ok tt, s)
    | b :: fs =>
        let s' := mkSession (db s) (committed s) (pending s) fs in
        if b then (Raise OperationalError, s') else (Ok tt, s')
    end.

Definition flush : M (option Z) :=
  fun s =>
    match flush_ops (db s) None (pending s) with
    | Ok (d', k) => (Ok k, mkSession d' (committed s) [] (faults s))
    | Raise e => (Raise e, s)
    end.

(** [await session.commit()]; the result is the rowid the flush gave to the
    item it inserted, which the ORM writes back into the instance. *)
Definition commit : M (option Z) :=
  tick ;;;
  k <- flush ;;
  fun s => (Ok k, mkSession (db s) (db s) (pending s) (faults s)).

(** [await session.rollback()], when it succeeds.  The functions that call it
    take the call as a parameter, see [cruds/item.py] below. *)
Definition rollback : M unit :=
  fun s => (Ok tt, mkSession (committed s) (committed s) [] (faults s)).

Definition register (op : uow) : M unit :=
  fun s => (Ok tt, mkSession (db s) (committed s) (pending s ++ [op]) (faults s)).

Definition ItemModel_of_row (r : ItemRow.t) : ItemModel.t :=
  ItemModel.mk (Some (ItemRow.item_id r)) (Some (ItemRow.task_name r))
    (Some (ItemRow.user_id r)) (Some (ItemRow.expire_date r))
    (ItemRow.finished_date r).

Definition UserModel_of_row (r : UserRow.t) : UserModel.t :=
  UserModel.mk (Some (UserRow.user_id r)) (Some (UserRow.name r))
    (Some (UserRow.password r)).

(** [await session.execute(select(ItemModel).where(...))], after autoflush. *)
Definition select_ItemModel (criteria : ItemRow.t -> bool) : M (list ItemModel.t) :=
  tick ;;;
  _ <- flush ;;
  fun s => (Ok (map ItemModel_of_row (filter criteria (todo_item (db s)))), s).

Definition select_UserModel (criteria : UserRow.t -> bool) : M (list UserModel.t) :=
  tick ;;;
  _ <- flush ;;
  fun s => (Ok (map UserModel_of_row (filter criteria (todo_user (db s)))), s).

Definition scalar_one_or_none {A} (rows : list A) : M (option A) :=
  match rows with
  | [] => ret None
  | [x] => ret (Some x)
  | _ :: _ :: _ => raise MultipleResultsFound
  end.

(** [await session.refresh(obj)]: the row of the instance's primary key. *)
Definition refresh_item (o : ItemModel.t) : M ItemModel.t :=
  tick ;;;
  fun s =>
    match ItemModel.item_id o with
    | None => (Raise InvalidRequestError, s)
    | Some pk =>
        match filter (fun r => ItemRow.item_id r =? pk) (todo_item (db s)) with
        | r :: _ => (Ok (ItemModel_of_row r), s)
        | [] => (Raise InvalidRequestError, s)
        end
    end.

Definition refresh_user (o : UserModel.t) : M UserModel.t :=
  tick ;;;
  fun s =>
    match UserModel.user_id o with
    | None => (Raise InvalidRequestError, s)
    | Some pk =>
        match filter (fun r => String.eqb (UserRow.user_id r) pk)
                     (todo_user (db s)) with
        | r :: _ => (Ok (UserModel_of_row r), s)
        | [] => (Raise InvalidRequestError, s)
        end
    end.

(** [session.add], [session.delete] and assignment to a loaded instance. *)
Definition session_add_item (o : ItemModel.t) : M unit := register (Add_item o).
Definition session_add_user (o : UserModel.t) : M unit := register (Add_user o).

Definition session_delete_item (o : ItemModel.t) : M unit :=
  match ItemModel.item_id o with
  | Some pk => register (Del_item pk)
  | None => raise InvalidRequestError
  end.

Definition session_delete_user (o : UserModel.t) : M unit :=
  match UserModel.user_id o with
  | Some pk => register (Del_user pk)
  | None => raise InvalidRequestError
  end.

(** The instance [loaded] now carries the attributes of [o']. *)
Definition session_dirty_item (loaded o' : ItemModel.t) : M unit :=
  match ItemModel.item_id loaded with
  | Some pk => register (Upd_item pk o')
  | None => raise InvalidRequestError
  end.

Definition session_dirty_user (loaded o' : UserModel.t) : M unit :=
  match UserModel.user_id loaded with
  | Some pk => register (Upd_user pk o')
  | None => raise InvalidRequestError
  end.

(** ** pydantic: [model_dump], assignment, [model_validate] *)

Definition dump_filter (exclude_unset : bool) (fields_set : list string)
  (d : pydict) : pydict :=
  filter (fun kv => negb exclude_unset || mem_string (fst kv) fields_set) d.

Definition ItemSchema_model_dump (exclude_unset : bool) (it : ItemSchema.t)
  : pydict :=
  dump_filter exclude_unset (ItemSchema.model_fields_set it)
    [ ("item_id", of_opt_int (ItemSchema.item_id it));
      ("task_name", VStr (ItemSchema.task_name it));
      ("user_id", VStr (ItemSchema.user_id it));
      ("expire_date", VDatetime (ItemSchema.expire_date it));
      ("finished_date", of_opt_datetime (ItemSchema.finished_date it)) ].

Definition UserSchema_model_dump (exclude_unset : bool) (u : UserSchema.t)
  : pydict :=
  dump_filter exclude_unset (UserSchema.model_fields_set u)
    [ ("user_id", VStr (UserSchema.user_id u));
      ("name", VStr (UserSchema.name u));
      ("password", VStr (UserSchema.password u)) ].

(** [item.user_id = v] on a schema object: the value is stored and the field
    counts as set from then on. *)
Definition ItemSchema_set_user_id (it : ItemSchema.t) (v : string)
  : ItemSchema.t :=
  ItemSchema.mk (ItemSchema.item_id it) (ItemSchema.task_name it) v
    (ItemSchema.expire_date it) (ItemSchema.finished_date it)
    ("user_id" :: ItemSchema.model_fields_set it).

(** The length limits of the schemas count characters.  A string of the
    model is the UTF-8 text of the Python string, so its characters are the
    bytes that are not continuation bytes (which lie between 128 and 191). *)
Definition is_continuation_byte (a : ascii) : bool :=
  let n := nat_of_ascii a in
  Nat.leb 128 n && Nat.ltb n 192.

Fixpoint utf8_characters (s : string) : nat :=
  match s with
  | EmptyString => O
  | String a s' =>
      ((if is_continuation_byte a then 0 else 1) + utf8_characters s')%nat
  end.

Definition max_length (n : nat) (s : string) : bool :=
  Nat.leb (utf8_characters s) n.

Definition ItemSchema_model_validate (o : ItemModel.t) : res ItemSchema.t :=
  match ItemModel.task_name o, ItemModel.user_id o, ItemModel.expire_date o with
  | Some tn, Some uid, Some ed =>
      if max_length 100 tn && max_length 20 uid
      then Ok (ItemSchema.mk (ItemModel.item_id o) tn uid ed
                 (ItemModel.finished_date o) ItemSchema.fields)
      else Raise ValidationError
  | _, _, _ => Raise ValidationError
  end.

Definition UserSchema_model_validate (o : UserModel.t) : res UserSchema.t :=
  match UserModel.user_id o, UserModel.name o, UserModel.password o with
  | Some uid, Some n, Some p =>
      if max_length 20 uid && max_length 40 n && max_length 100 p
      then Ok (UserSchema.mk uid n p UserSchema.fields)
      else Raise ValidationError
  | _, _, _ => Raise ValidationError
  end.

(** [[Schema.model_validate(x) for x in xs]] *)
Fixpoint validate_all {A B} (f : A -> res B) (xs : list A) : res (list B) :=
  match xs with
  | [] => Ok []
  | x :: xs' =>
      match f x with
      | Raise e => Raise e
      | Ok y =>
          match validate_all f xs' with
          | Raise e => Raise e
          | Ok ys => Ok (y :: ys)
          end
      end
  end.

(** ** ORM instances: [setattr] and the keyword constructor *)

Definition ItemModel_setattr (o : ItemModel.t) (key : string) (v : value)
  : res ItemModel.t :=
  let '(ItemModel.mk i tn uid ed fd) := o in
  if String.eqb key "item_id" then
    match v with
    | VNone => Ok (ItemModel.mk None tn uid ed fd)
    | VInt n => Ok (ItemModel.mk (Some n) tn uid ed fd)
    | _ => Raise TypeError
    end
  else if String.eqb key "task_name" then
    match v with
    | VNone => Ok (ItemModel.mk i None uid ed fd)
    | VStr s => Ok (ItemModel.mk i (Some s) uid ed fd)
    | _ => Raise TypeError
    end
  else if String.eqb key "user_id" then
    match v with
    | VNone => Ok (ItemModel.mk i tn None ed fd)
    | VStr s => Ok (ItemModel.mk i tn (Some s) ed fd)
    | _ => Raise TypeError
    end
  else if String.eqb key "expire_date" then
    match v with
    | VNone => Ok (ItemModel.mk i tn uid None fd)
    | VDatetime d => Ok (ItemModel.mk i tn uid (Some d) fd)
    | _ => Raise TypeError
    end
  else if String.eqb key "finished_date" then
    match v with
    | VNone => Ok (ItemModel.mk i tn uid ed None)
    | VDatetime d => Ok (ItemModel.mk i tn uid ed (Some d))
    | _ => Raise TypeError
    end
  else Raise TypeError.

Definition UserModel_setattr (o : UserModel.t) (key : string) (v : value)
  : res UserModel.t :=
  let '(UserModel.mk uid n p) := o in
  if String.eqb key "user_id" then
    match v with
    | VNone => Ok (UserModel.mk None n p)
    | VStr s => Ok (UserModel.mk (Some s) n p)
    | _ => Raise TypeError
    end
  else if String.eqb key "name" then
    match v with
    | VNone => Ok (UserModel.mk uid None p)
    | VStr s => Ok (UserModel.mk uid (Some s) p)
    | _ => Raise TypeError
    end
  else if String.eqb key "password" then
    match v with
    | VNone => Ok (UserModel.mk uid n None)
    | VStr s => Ok (UserModel.mk uid n (Some s))
    | _ => Raise TypeError
    end
  else Raise TypeError.

(** [for key, value in d.items(): setattr(o, key, value)] *)
Fixpoint setattrs {O} (setattr : O -> string -> value -> res O) (o : O)
  (d : pydict) : res O :=
  match d with
  | [] => Ok o
  | (k, v) :: d' =>
      match setattr o k v with
      | Raise e => Raise e
      | Ok o' => setattrs setattr o' d'
      end
  end.

(** The keyword constructors of the two model classes, called on a
    dictionary of attributes. *)
Definition ItemModel_init (kwargs : pydict) : res ItemModel.t :=
  setattrs ItemModel_setattr ItemModel.empty kwargs.

Definition UserModel_init (kwargs : pydict) : res UserModel.t :=
  setattrs UserModel_setattr UserModel.empty kwargs.

Definition with_rowid (o : ItemModel.t) (k : option Z) : ItemModel.t :=
  match k with
  | Some pk =>
      ItemModel.mk (Some pk) (ItemModel.task_name o) (ItemModel.user_id o)
        (ItemModel.expire_date o) (ItemModel.finished_date o)
  | None => o
  end.

Definition with_finished_date (o : ItemModel.t) (fd : option datetime)
  : ItemModel.t :=
  ItemModel.mk (ItemModel.item_id o) (ItemModel.task_name o)
    (ItemModel.user_id o) (ItemModel.expire_date o) fd.

(** ** [cruds/item.py]

    The functions that write call [session.rollback()] in their [except]
    block.  That call is a parameter of the embedding ([..._on]): the
    function of the source name is the one whose rollback is [rollback],
    which succeeds; a rollback that fails is another argument. *)

Definition by_item_id (item_id : Z) (r : ItemRow.t) : bool :=
  ItemRow.item_id r =? item_id.

Definition get_item : M (list ItemSchema.t) :=
  try_except
    (items <- select_ItemModel (fun _ => true) ;;
     lift (validate_all ItemSchema_model_validate items))
    (fun _ => ret []).

Definition get_item_by_user_id (user_id : string) : M (list ItemSchema.t) :=
  try_except
    (items <- select_ItemModel (owned_by user_id) ;;
     lift (validate_all ItemSchema_model_validate items))
    (fun _ => ret []).

Definition get_item_by_id (item_id : Z) : M (option ItemSchema.t) :=
  try_except
    (result <- select_ItemModel (by_item_id item_id) ;;
     item <- scalar_one_or_none result ;;
     match item with
     | Some o => v <- lift (ItemSchema_model_validate o) ;; ret (Some v)
     | None => ret None
     end)
    (fun _ => ret None).

Definition delete_item_on (session_rollback : M unit) (item_id : Z)
  : M bool :=
  try_except
    (result <- select_ItemModel (by_item_id item_id) ;;
     item <- scalar_one_or_none result ;;
     match item with
     | Some o =>
         session_delete_item o ;;;
         _ <- commit ;;
         ret true
     | None => ret false
     end)
    (fun _ => session_rollback ;;; ret false).

Definition delete_item : Z -> M bool :=
  delete_item_on rollback.

Definition create_item_on (session_rollback : M unit) (item : ItemSchema.t)
  : M (option ItemSchema.t) :=
  try_except
    (new_item <- lift (ItemModel_init (ItemSchema_model_dump true item)) ;;
     session_add_item new_item ;;;
     k <- commit ;;
     new_item' <- refresh_item (with_rowid new_item k) ;;
     v <- lift (ItemSchema_model_validate new_item') ;;
     ret (Some v))
    (fun _ => session_rollback ;;; ret None).

Definition create_item : ItemSchema.t -> M (option ItemSchema.t) :=
  create_item_on rollback.

Definition update_item_on (session_rollback : M unit) (item_id : Z)
  (item_data : ItemSchema.t)
  : M (option ItemSchema.t) :=
  try_except
    (result <- select_ItemModel (by_item_id item_id) ;;
     item <- scalar_one_or_none result ;;
     match item with
     | None => ret None
     | Some o =>
         let update_data := ItemSchema_model_dump true item_data in
         o' <- lift (setattrs ItemModel_setattr o update_data) ;;
         session_dirty_item o o' ;;;
         _ <- commit ;;
         o'' <- refresh_item o' ;;
         v <- lift (ItemSchema_model_validate o'') ;;
         ret (Some v)
     end)
    (fun _ => session_rollback ;;; ret None).

Definition update_item : Z -> ItemSchema.t -> M (option ItemSchema.t) :=
  update_item_on rollback.

Definition update_finished_date_on (session_rollback : M unit) (item_id : Z)
  (finished_date : option datetime)
  : M (option ItemSchema.t) :=
  try_except
    (result <- select_ItemModel (by_item_id item_id) ;;
     item <- scalar_one_or_none result ;;
     match item with
     | None => ret None
     | Some o =>
         let o' := with_finished_date o finished_date in
         session_dirty_item o o' ;;;
         _ <- commit ;;
         o'' <- refresh_item o' ;;
         v <- lift (ItemSchema_model_validate o'') ;;
         ret (Some v)
     end)
    (fun _ => session_rollback ;;; ret None).

Definition update_finished_date : Z -> option datetime -> M (option ItemSchema.t) :=
  update_finished_date_on rollback.

(** ** [cruds/user.py] *)

Definition by_user_id (user_id : string) (r : UserRow.t) : bool :=
  String.eqb (UserRow.user_id r) user_id.

Definition get_user_by_id_and_password (user_id password : string)
  : M (option UserSchema.t) :=
  try_except
    (result <- select_UserModel
                 (fun r => by_user_id user_id r
                           && String.eqb (UserRow.password r) password) ;;
     user <- scalar_one_or_none result ;;
     match user with
     | Some o => v <- lift (UserSchema_model_validate o) ;; ret (Some v)
     | None => ret None
     end)
    (fun _ => ret None).

Definition get_user_by_id (user_id : string) : M (option UserSchema.t) :=
  try_except
    (result <- select_UserModel (by_user_id user_id) ;;
     user <- scalar_one_or_none result ;;
     match user with
     | Some o => v <- lift (UserSchema_model_validate o) ;; ret (Some v)
     | None => ret None
     end)
    (fun _ => ret None).

Definition get_users : M (option (list UserSchema.t)) :=
  try_except
    (users <- select_UserModel (fun _ => true) ;;
     l <- lift (validate_all UserSchema_model_validate users) ;;
     ret (Some l))
    (fun _ => ret None).

Definition create_user_on (session_rollback : M unit)
  (user_data : UserSchema.t) : M (option UserSchema.t) :=
  try_except
    (new_user <- lift (UserModel_init (UserSchema_model_dump false user_data)) ;;
     session_add_user new_user ;;;
     _ <- commit ;;
     new_user' <- refresh_user new_user ;;
     v <- lift (UserSchema_model_validate new_user') ;;
     ret (Some v))
    (fun _ => session_rollback ;;; ret None).

Definition create_user : UserSchema.t -> M (option UserSchema.t) :=
  create_user_on rollback.

Definition update_user_on (session_rollback : M unit) (user_id : string)
  (user_data : UserSchema.t)
  : M (option UserSchema.t) :=
  try_except
    (result <- select_UserModel (by_user_id user_id) ;;
     user <- scalar_one_or_none result ;;
     match user with
     | Some o =>
         o' <- lift (setattrs UserModel_setattr o
                       (UserSchema_model_dump false user_data)) ;;
         session_dirty_user o o' ;;;
         _ <- commit ;;
         o'' <- refresh_user o' ;;
         v <- lift (UserSchema_model_validate o'') ;;
         ret (Some v)
     | None => ret None
     end)
    (fun _ => session_rollback ;;; ret None).

Definition update_user : string -> UserSchema.t -> M (option UserSchema.t) :=
  update_user_on rollback.

Definition delete_user_on (session_rollback : M unit) (user_id : string)
  : M bool :=
  try_except
    (result <- select_UserModel (by_user_id user_id) ;;
     user <- scalar_one_or_none result ;;
     match user with
     | Some o =>
         session_delete_user o ;;;
         _ <- commit ;;
         ret true
     | None => ret false
     end)
    (fun _ => session_rollback ;;; ret false).

Definition delete_user : string -> M bool :=
  delete_user_on rollback.

(** ** The token library as [security/auth.py] uses it

    [import jwt] with the module-level [jwt.encode(payload, key, algorithm=)]
    and [jwt.decode(token, key, algorithms=)] is the PyJWT package.  A token
    is modelled by its parts; the HMAC is ideal: a tag determines the key and
    the claims it was computed from. *)

Record claims := mkClaims {
  claim_user_id : option string;
  claim_exp : option Z
}.

Record payload := mkPayload {
  payload_user_id : string;
  payload_exp : datetime
}.

Definition opt_eqb {A} (eqb : A -> A -> bool) (x y : option A) : bool :=
  match x, y with
  | Some a, Some b => eqb a b
  | None, None => true
  | _, _ => false
  end.

Definition claims_eqb (c1 c2 : claims) : bool :=
  opt_eqb String.eqb (claim_user_id c1) (claim_user_id c2)
  && opt_eqb Z.eqb (claim_exp c1) (claim_exp c2).

Definition tag := (string * claims)%type.

Definition hmac (key : string) (c : claims) : tag := (key, c).

Definition tag_eqb (t1 t2 : tag) : bool :=
  String.eqb (fst t1) (fst t2) && claims_eqb (snd t1) (snd t2).

Inductive token :=
| Jws (alg : string) (c : claims) (signature : tag)
| Garbage (raw : string).     (* not three base64url segments of JSON *)

(** [jwt.encode]: a [datetime] under [exp] becomes its number of seconds. *)
Definition jwt_encode (p : payload) (key : string) (algorithm : string)
  : token :=
  let c := mkClaims (Some (payload_user_id p)) (Some (payload_exp p)) in
  Jws algorithm c (hmac key c).

(** [jwt.decode] at the instant [now]: parse, check the algorithm and the
    signature, then the [exp] claim when there is one. *)
Definition jwt_decode (t : token) (key : string) (algorithms : list string)
  (now : datetime) : res claims :=
  match t with
  | Garbage _ => Raise DecodeError
  | Jws alg c sig =>
      if negb (mem_string alg algorithms) then Raise InvalidAlgorithmError
      else if negb (tag_eqb sig (hmac key c)) then Raise InvalidSignatureError
      else
        match claim_exp c with
        | Some exp => if exp <=? now then Raise ExpiredSignatureError else Ok c
        | None => Ok c
        end
  end.

(** The exception classes the package exports, by name, and their base
    classes.  It exports no [JWTError]. *)
Inductive jwt_class :=
| cls_PyJWTError
| cls_InvalidTokenError
| cls_DecodeError
| cls_InvalidSignatureError
| cls_ExpiredSignatureError
| cls_InvalidAlgorithmError.

Definition jwt_exports : list (string * jwt_class) :=
  [ ("PyJWTError", cls_PyJWTError);
    ("InvalidTokenError", cls_InvalidTokenError);
    ("DecodeError", cls_DecodeError);
    ("InvalidSignatureError", cls_InvalidSignatureError);
    ("ExpiredSignatureError", cls_ExpiredSignatureError);
    ("InvalidAlgorithmError", cls_InvalidAlgorithmError) ].

Fixpoint jwt_getattr_in (l : list (string * jwt_class)) (name : string)
  : option jwt_class :=
  match l with
  | [] => None
  | (k, c) :: l' => if String.eqb k name then Some c else jwt_getattr_in l' name
  end.

Definition jwt_getattr (name : string) : option jwt_class :=
  jwt_getattr_in jwt_exports name.

(** [isinstance(e, c)], along the class hierarchy of the package. *)
Definition isinstance (e : exn) (c : jwt_class) : bool :=
  match e, c with
  | ExpiredSignatureError,
    (cls_ExpiredSignatureError | cls_InvalidTokenError | cls_PyJWTError) => true
  | InvalidSignatureError,
    (cls_InvalidSignatureError | cls_DecodeError | cls_InvalidTokenError
     | cls_PyJWTError) => true
  | DecodeError,
    (cls_DecodeError | cls_InvalidTokenError | cls_PyJWTError) => true
  | InvalidAlgorithmError,
    (cls_InvalidAlgorithmError | cls_InvalidTokenError | cls_PyJWTError) => true
  | _, _ => false
  end.

(** One [except jwt.<name>:] clause met by the exception [e]: the attribute
    is looked up when the clause is reached. *)
Definition except_jwt {A} (name : string) (e : exn) (handler : M A)
  (next : M A) : M A :=
  match jwt_getattr name with
  | None =>
      raise (AttributeError ("module 'jwt' has no attribute '" ++ name ++ "'"))
  | Some c => if isinstance e c then handler else next
  end.

(** ** [security/auth.py] *)

Definition SECRET_KEY : string := "learning-secret-key".
Definition ALGORITHM : string := "HS256".

Definition detail_invalid_token : string := "無効なトークン".
Definition detail_user_not_found : string := "ユーザーが見つかりません".
Definition detail_token_expired : string := "トークンの有効期限が切れています".

(** [utcnow] is the reading of the clock when the token is issued, in whole
    seconds (what [jwt.encode] keeps of it); [create_access_token_at] below
    starts from the reading itself. *)
Definition create_access_token (user_id : string) (utcnow : datetime) : token :=
  let expire := utcnow + timedelta_hours 24 in
  let payload := mkPayload user_id expire in
  jwt_encode payload SECRET_KEY ALGORITHM.

(** [now] is the reading of the clock when the token is presented, in whole
    seconds (what the comparison with [exp] depends on);
    [get_current_user_at] below starts from the reading itself. *)
Definition get_current_user (credentials : token) (now : datetime)
  : M UserSchema.t :=
  try_except
    (payload <- lift (jwt_decode credentials SECRET_KEY [ALGORITHM] now) ;;
     match claim_user_id payload with
     | None => raise (HTTPException 401 detail_invalid_token)
     | Some user_id =>
         user <- get_user_by_id user_id ;;
         match user with
         | None => raise (HTTPException 401 detail_user_not_found)
         | Some u => ret u
         end
     end)
    (fun e =>
       except_jwt "ExpiredSignatureError" e
         (raise (HTTPException 401 detail_token_expired))
         (except_jwt "JWTError" e
            (raise (HTTPException 401 detail_invalid_token))
            (raise e))).

(** ** [utils/exceptions.py] and the item handlers of [routers/item.py] *)

Definition raise_not_found {A} (resource : string) : M A :=
  raise (HTTPException 404 (resource ++ "が見つかりません")).

Definition raise_bad_request {A} (message : string) : M A :=
  raise (HTTPException 400 message).

Definition create_item_endpoint_on (session_rollback : M unit)
  (item : ItemSchema.t)
  (current_user : UserSchema.t) : M (option ItemSchema.t) :=
  try_except
    (let item := ItemSchema_set_user_id item (UserSchema.user_id current_user) in
     new_item <- create_item_on session_rollback item ;;
     ret new_item)
    (fun _ => raise_bad_request "Failed to create item").

Definition create_item_endpoint
  : ItemSchema.t -> UserSchema.t -> M (option ItemSchema.t) :=
  create_item_endpoint_on rollback.

Definition update_item_endpoint (item_id : Z) (item : ItemSchema.t)
  (current_user : UserSchema.t) : M ItemSchema.t :=
  try_except
    (let item := ItemSchema_set_user_id item (UserSchema.user_id current_user) in
     updated_item <- update_item item_id item ;;
     match updated_item with
     | None => raise_not_found "Item not found"
     | Some it => ret it
     end)
    (fun _ => raise_bad_request "Failed to update item").

(** A request to a handler that declares [Depends(get_current_user)]: the
    bearer token is resolved first, on the session of the request. *)
Definition authenticated {A} (credentials : token) (now : datetime)
  (handler : UserSchema.t -> M A) : M A :=
  current_user <- get_current_user credentials now ;;
  handler current_user.

Definition POST_items (credentials : token) (now : datetime)
  (item : ItemSchema.t) : M (option ItemSchema.t) :=
  authenticated credentials now (create_item_endpoint item).

Definition PUT_items (credentials : token) (now : datetime) (item_id : Z)
  (item : ItemSchema.t) : M ItemSchema.t :=
  authenticated credentials now (update_item_endpoint item_id item).

(** ** The other item handlers of [routers/item.py] *)

Definition read_items_endpoint (current_user : UserSchema.t)
  : M (list ItemSchema.t) :=
  get_item.

Definition read_item_endpoint (item_id : Z) (current_user : UserSchema.t)
  : M ItemSchema.t :=
  item <- get_item_by_id item_id ;;
  match item with
  | None => raise_not_found "Item not found"
  | Some it => ret it
  end.

Definition delete_item_endpoint (item_id : Z) (current_user : UserSchema.t)
  : M pydict :=
  deleted <- delete_item item_id ;;
  if negb deleted then raise_not_found "Item not found"
  else ret [("detail", VStr "Item deleted successfully")].

Definition finish_item_endpoint (item_id : Z) (finished_date : option datetime)
  (current_user : UserSchema.t) : M ItemSchema.t :=
  item <- update_finished_date item_id finished_date ;;
  match item with
  | None => raise_not_found "Item not found"
  | Some it => ret it
  end.

(** ** [schemas/response.py] and the handlers of [routers/user.py] *)

Record APIResponse (T : Type) := mkAPIResponse {
  success : bool;
  message : string;
  data : option T
}.
Arguments mkAPIResponse {T} success message data.
Arguments success {T} a.
Arguments message {T} a.
Arguments data {T} a.

(** [APIResponse(message=..., data=...)]: [success] keeps its default. *)
Definition APIResponse_init {T} (message : string) (data : option T)
  : APIResponse T :=
  mkAPIResponse true message data.

Record LoginResponse := mkLoginResponse {
  access_token : token;
  token_type : string;
  user : pydict
}.

Definition read_users_endpoint (current_user : UserSchema.t)
  : M (APIResponse (list UserSchema.t)) :=
  users <- get_users ;;
  ret (APIResponse_init "ユーザー一覧を取得しました" users).

Definition read_user_by_id_endpoint (user_id : string)
  (current_user : UserSchema.t) : M (APIResponse UserSchema.t) :=
  user <- get_user_by_id user_id ;;
  match user with
  | None => raise_not_found "ユーザー"
  | Some u => ret (APIResponse_init "ユーザー情報を取得しました" (Some u))
  end.

Definition get_my_info (current_user : UserSchema.t)
  : M (APIResponse UserSchema.t) :=
  ret (APIResponse_init "ユーザー情報を取得しました" (Some current_user)).

Definition create_user_endpoint (user : UserSchema.t)
  : M (APIResponse UserSchema.t) :=
  created_user <- create_user user ;;
  match created_user with
  | None => raise_bad_request "ユーザー作成に失敗しました"
  | Some u => ret (APIResponse_init "ユーザーを作成しました" (Some u))
  end.

(** The login handler; [utcnow] is the reading of the clock when the token
    is issued. *)
Definition read_user_by_id_and_password_endpoint (user_id password : string)
  (utcnow : datetime) : M LoginResponse :=
  user <- get_user_by_id_and_password user_id password ;;
  match user with
  | None => raise_bad_request "認証失敗"
  | Some u =>
      let token := create_access_token (UserSchema.user_id u) utcnow in
      ret (mkLoginResponse token "bearer" (UserSchema_model_dump false u))
  end.

Definition update_user_endpoint (user_id : string) (user : UserSchema.t)
  (current_user : UserSchema.t) : M (APIResponse UserSchema.t) :=
  updated_user <- update_user user_id user ;;
  match updated_user with
  | None => raise_not_found "ユーザー"
  | Some u => ret (APIResponse_init "ユーザー情報を更新しました" (Some u))
  end.

Definition delete_user_endpoint (user_id : string)
  (current_user : UserSchema.t) : M (APIResponse unit) :=
  deleted <- delete_user user_id ;;
  if negb deleted then raise_not_found "ユーザー"
  else ret (APIResponse_init "ユーザーを削除しました" None).

(** ** The clock, and datetimes with a timezone

    [datetime.utcnow()] and the clock that [jwt.decode] compares [exp] with
    read microseconds. *)

Definition instant := Z.

Definition seconds_of (t : instant) : datetime := t / 1000000.

(** [timedelta(hours=h)] on that clock. *)
Definition timedelta_hours_at (h : Z) : Z := h * 3600 * 1000000.

(** [create_access_token] when the clock reads [utcnow]: [jwt.encode] puts
    the whole seconds of [expire] under [exp]. *)
Definition create_access_token_at (user_id : string) (utcnow : instant)
  : token :=
  let expire := utcnow + timedelta_hours_at 24 in
  let payload := mkPayload user_id (seconds_of expire) in
  jwt_encode payload SECRET_KEY ALGORITHM.

(** [get_current_user] when the clock reads [now].  [jwt.decode] reports
    expiry when [exp <= now] for the whole number [exp] and the fractional
    reading [now], that is when [exp] is at most the whole seconds of [now]
    (lemma [expired_on_the_clock]). *)
Definition get_current_user_at (credentials : token) (now : instant)
  : M UserSchema.t :=
  get_current_user credentials (seconds_of now).

(** The login handler when the clock reads [utcnow]. *)
Definition read_user_by_id_and_password_endpoint_at
  (user_id password : string) (utcnow : instant) : M LoginResponse :=
  user <- get_user_by_id_and_password user_id password ;;
  match user with
  | None => raise_bad_request "認証失敗"
  | Some u =>
      let token := create_access_token_at (UserSchema.user_id u) utcnow in
      ret (mkLoginResponse token "bearer" (UserSchema_model_dump false u))
  end.

(** A datetime as a caller hands it over: its wall-clock reading, and its
    offset from UTC in minutes when it is timezone-aware. *)
Record pydatetime := mkDatetime {
  wall : datetime;
  tzinfo : option Z
}.

(** The [DateTime] columns of [models/item.py] are declared without
    [timezone]: the value bound to the column is the wall-clock reading, the
    [tzinfo] is not stored, and the value read back is naive. *)
Definition bind_DateTime (d : pydatetime) : datetime := wall d.

Definition result_DateTime (d : datetime) : pydatetime := mkDatetime d None.

(** [update_finished_date] called with a datetime that may be aware: the
    assignment [item.finished_date = finished_date] keeps the value until the
    flush binds it to the column; the refresh reads the column back. *)
Definition update_finished_date_aware (item_id : Z)
  (finished_date : option pydatetime) : M (option ItemSchema.t) :=
  update_finished_date item_id (option_map bind_DateTime finished_date).

(** The [finished_date] of an item that was read from the store, as the
    caller of the repository holds it. *)
Definition finished_date_read (it : ItemSchema.t) : option pydatetime :=
  option_map result_DateTime (ItemSchema.finished_date it).

(** The range of a 64-bit signed integer, which an [item_id] has to lie in
    to be stored. *)
Definition int64 (n : Z) : Prop := - 2 ^ 63 <= n < 2 ^ 63.

(** ** Auxiliary definitions for the statements *)

(** The table with the rows of primary key [pk] overwritten by [row]. *)
Definition replace_item (pk : Z) (row : ItemRow.t) (c : DB) : DB :=
  mkDB (todo_user c)
    (map (fun r => if (ItemRow.item_id r =? pk)%Z then row else r)
         (todo_item c)).

(** An item, and a row, with another completion date. *)
Definition ItemSchema_with_finished_date (it : ItemSchema.t)
  (fd : option datetime) : ItemSchema.t :=
  ItemSchema.mk (ItemSchema.item_id it) (ItemSchema.task_name it)
    (ItemSchema.user_id it) (ItemSchema.expire_date it) fd
    (ItemSchema.model_fields_set it).

Definition ItemRow_with_finished_date (r : ItemRow.t) (fd : option datetime)
  : ItemRow.t :=
  ItemRow.mk (ItemRow.item_id r) (ItemRow.task_name r) (ItemRow.user_id r)
    (ItemRow.expire_date r) fd.

(** The value of a field when it is among the set ones. *)
Definition if_set {A} (fields_set : list string) (field : string)
  (v : option A) : option A :=
  if mem_string field fields_set then v else None.

(** A session at the start of a repository call: nothing pending, and the
    transaction sees the committed rows. *)
Definition clean (s : Session) : Prop :=
  pending s = [] /\ db s = committed s.

(** A clean session on which no store fault is scheduled. *)
Definition quiet (s : Session) : Prop := clean s /\ faults s = [].

(** The two sessions hold the same rows and the same unit of work. *)
Definition same_rows (s s1 : Session) : Prop :=
  db s1 = db s /\ committed s1 = committed s /\ pending s1 = pending s.

(** ** Sample data *)

Definition alice_row : UserRow.t := UserRow.mk "u1" "Alice" "p".

Definition milk_row : ItemRow.t := ItemRow.mk 1 "buy milk" "u1" 1000 None.

Definition sample_db : DB := mkDB [alice_row] [milk_row].

Definition alice : UserSchema.t := UserSchema.mk "u1" "Alice" "p" UserSchema.fields.

Definition alicia : UserSchema.t :=
  UserSchema.mk "u1" "Alicia" "pw" UserSchema.fields.

Definition bob : UserSchema.t := UserSchema.mk "u2" "Bob" "q" UserSchema.fields.

Definition milk : ItemSchema.t :=
  ItemSchema.mk (Some 1) "buy milk" "u1" 1000 None ItemSchema.fields.

Definition tea : ItemSchema.t :=
  ItemSchema.mk None "buy tea" "somebody-else" 2000 None
    ["task_name"; "user_id"; "expire_date"].

Definition forged_claims : claims := mkClaims (Some "u1") (Some 100000).

(** ** Auxiliary definitions for the further properties *)

(** The computation answers with a value, on every session. *)
Definition answers {A} (m : M A) : Prop :=
  forall s, exists r, fst (m s) = Ok r.

(** The schema objects [model_validate] builds from a stored row. *)
Definition ItemSchema_of_row (r : ItemRow.t) : ItemSchema.t :=
  ItemSchema.mk (Some (ItemRow.item_id r)) (ItemRow.task_name r)
    (ItemRow.user_id r) (ItemRow.expire_date r) (ItemRow.finished_date r)
    ItemSchema.fields.

Definition UserSchema_of_row (r : UserRow.t) : UserSchema.t :=
  UserSchema.mk (UserRow.user_id r) (UserRow.name r) (UserRow.password r)
    UserSchema.fields.

(** The row that holds the three fields of a candidate user. *)
Definition UserRow_of_schema (u : UserSchema.t) : UserRow.t :=
  UserRow.mk (UserSchema.user_id u) (UserSchema.name u) (UserSchema.password u).

(** The row [row] with the set fields of [it] written over it, under the
    primary key [pk]. *)
Definition ItemRow_merge (row : ItemRow.t) (it : ItemSchema.t) (pk : Z)
  : ItemRow.t :=
  let fs := ItemSchema.model_fields_set it in
  ItemRow.mk pk
    (if mem_string "task_name" fs then ItemSchema.task_name it
     else ItemRow.task_name row)
    (if mem_string "user_id" fs then ItemSchema.user_id it
     else ItemRow.user_id row)
    (if mem_string "expire_date" fs then ItemSchema.expire_date it
     else ItemRow.expire_date row)
    (if mem_string "finished_date" fs then ItemSchema.finished_date it
     else ItemRow.finished_date row).

(** The primary key an update asks for: the one of the body when the body
    sets [item_id], the one of the loaded row otherwise. *)
Definition update_item_pk (item_id : Z) (it : ItemSchema.t) : option Z :=
  if mem_string "item_id" (ItemSchema.model_fields_set it)
  then ItemSchema.item_id it else Some item_id.

(** Further sample data: a store whose user owns no item, and the item the
    sample store holds after [tea] was created in it. *)
Definition lonely_db : DB := mkDB [alice_row] [].

Definition tea_row : ItemRow.t :=
  ItemRow.mk 2 "buy tea" "somebody-else" 2000 None.

Definition no_such_user : string := "ghost".

(** ** Auxiliary definitions for the clock, the user table and creation *)

(** The instant at which a token issued at [issued] expires: the whole
    seconds of the issue, 24 hours later. *)
Definition expiry_of (issued : instant) : instant :=
  (seconds_of issued + timedelta_hours 24) * 1000000.

(** The committed rows of the user table. *)
Definition stored_users (s : Session) : list UserRow.t :=
  todo_user (committed s).

(** The computation leaves the committed user rows as they are. *)
Definition keeps_users {A} (m : M A) : Prop :=
  forall s, clean s -> stored_users (snd (m s)) = stored_users s.

(** The user table with the rows of [user_id] overwritten by the fields of
    the candidate [user_data]. *)
Definition overwrite_user (user_id : string) (user_data : UserSchema.t)
  (l : list UserRow.t) : list UserRow.t :=
  map (fun row => if by_user_id user_id row
                  then UserRow_of_schema user_data else row) l.

(** The primary key a create gives to the item: the one the candidate sets,
    the next rowid of the table otherwise. *)
Definition create_item_pk (c : DB) (it : ItemSchema.t) : Z :=
  match if_set (ItemSchema.model_fields_set it) "item_id"
          (ItemSchema.item_id it) with
  | Some n => n
  | None => next_rowid c
  end.

(** The row a create inserts for the candidate [it]. *)
Definition created_row (c : DB) (it : ItemSchema.t) : ItemRow.t :=
  ItemRow.mk (create_item_pk c it) (ItemSchema.task_name it)
    (ItemSchema.user_id it) (ItemSchema.expire_date it)
    (if_set (ItemSchema.model_fields_set it) "finished_date"
       (ItemSchema.finished_date it)).

(** The candidate is one that validation produced: its required fields are
    set and within their length limits. *)
Definition validated_item (it : ItemSchema.t) : Prop :=
  mem_string "task_name" (ItemSchema.model_fields_set it) = true
  /\ mem_string "user_id" (ItemSchema.model_fields_set it) = true
  /\ mem_string "expire_date" (ItemSchema.model_fields_set it) = true
  /\ max_length 100 (ItemSchema.task_name it) = true
  /\ max_length 20 (ItemSchema.user_id it) = true.

Definition validated_user (u : UserSchema.t) : Prop :=
  max_length 20 (UserSchema.user_id u) = true
  /\ max_length 40 (UserSchema.name u) = true
  /\ max_length 100 (UserSchema.password u) = true.

(** Further sample data: a timezone-aware datetime (UTC+9), a user who is
    not in the sample store, and a user row whose name is longer than the
    schema allows. *)
Definition noon_in_tokyo : pydatetime := mkDatetime 5000 (Some 540).

Definition carol : UserSchema.t :=
  UserSchema.mk "u3" "Carol" "r" UserSchema.fields.

Definition long_name_row : UserRow.t :=
  UserRow.mk "u9" "an-overlong-name-of-more-than-forty-characters" "x".

(** * Properties *)

(** ** Proof steps shared by the repository lemmas *)

Ltac unfold_monad :=
  cbv beta iota zeta delta
    [try_except bind ret raise lift commit flush tick rollback register
     select_ItemModel select_UserModel scalar_one_or_none refresh_item
     refresh_user session_add_item session_add_user session_delete_item
     session_delete_user session_dirty_item session_dirty_user] in *.

Ltac case_step :=
  match goal with
  | |- context [match ?x with _ => _ end] =>
      let E := fresh "E" in destruct x eqn:E; simpl in *
  | |- context [if ?b then _ else _] =>
      let E := fresh "E" in destruct b eqn:E; simpl in *
  end.

Ltac cases := repeat (case_step; try congruence; try discriminate).

Lemma existsb_false_filter {A} (f : A -> bool) (l : list A) :
  existsb f l = false -> filter f l = [].
Proof.
  induction l as [|x l IH]; simpl; intros H; [reflexivity|].
  apply orb_false_iff in H. destruct H as [Hx Hl].
  rewrite Hx. auto.
Qed.

Lemma filter_cons_existsb {A} (f : A -> bool) (l : list A) x xs :
  filter f l = x :: xs -> existsb f l = true.
Proof.
  intros H. destruct (existsb f l) eqn:E; [reflexivity|].
  rewrite (existsb_false_filter _ _ E) in H. discriminate.
Qed.

Lemma filter_head_true {A} (f : A -> bool) (l : list A) x xs :
  filter f l = x :: xs -> f x = true.
Proof.
  intros H.
  assert (In x (filter f l)) as Hin by (rewrite H; left; reflexivity).
  apply filter_In in Hin. tauto.
Qed.

(** Overwriting the rows selected by [f] with a row that [f] selects too. *)
Lemma filter_replace {A} (f : A -> bool) (y : A) (l : list A) :
  f y = true ->
  filter f (map (fun r => if f r then y else r) l)
  = map (fun _ => y) (filter f l).
Proof.
  intros Hy. induction l as [|x l IH]; simpl; [reflexivity|].
  destruct (f x) eqn:Ex; simpl.
  - rewrite Hy. simpl. f_equal. exact IH.
  - rewrite Ex. exact IH.
Qed.

Lemma tag_eqb_refl (t : tag) : tag_eqb t t = true.
Proof.
  destruct t as [k [u e]]. unfold tag_eqb, claims_eqb. simpl.
  rewrite String.eqb_refl. simpl.
  destruct u as [u|], e as [e|]; simpl;
    rewrite ?String.eqb_refl, ?Z.eqb_refl; reflexivity.
Qed.

(** ** Store faults on the list operations *)

Lemma get_item_total (s : Session) : exists l, fst (get_item s) = Ok l.
Proof.
  unfold get_item. unfold_monad. destruct s as [d c p fs]. simpl.
  cases; eauto.
Qed.

Lemma get_users_total (s : Session) : exists r, fst (get_users s) = Ok r.
Proof.
  unfold get_users. unfold_monad. destruct s as [d c p fs]. simpl.
  cases; eauto.
Qed.

(** C8, counterexample.  With the store failing at the query, the list-all
    of the user repository answers absent ([None]); on a store that holds no
    user it answers the empty list.  The two answers differ, so the caller
    can tell the failure of the store from the absence of users. *)
Lemma get_users_fault_differs_from_empty :
  fst (get_users (new_session sample_db [true])) = Ok None
  /\ fst (get_users (new_session (mkDB [] []) [])) = Ok (Some [])
  /\ Ok (A:=option (list UserSchema.t)) None <> Ok (Some []).
Proof.
  repeat split. discriminate.
Qed.

(** C8, amended.  When the store fails at the query, the item repository's
    list-all answers the empty list and the user repository's list-all
    answers absent ([None]); neither operation raises, whatever the session.
    The answer of the item repository is the one a store without items
    gives.  The answer of the user repository is not the one a store without
    users gives, which is the empty list. *)
Theorem list_all_store_fault_shapes (s : Session) (fs : list bool) :
  faults s = true :: fs ->
  fst (get_item s) = Ok []
  /\ fst (get_users s) = Ok None
  /\ (forall s', (exists l, fst (get_item s') = Ok l)
                 /\ (exists r, fst (get_users s') = Ok r))
  /\ (forall us fs',
         fst (get_item s) = fst (get_item (new_session (mkDB us []) fs')))
  /\ (forall items fs',
         hd false fs' = false ->
         fst (get_users (new_session (mkDB [] items) fs')) = Ok (Some [])
         /\ fst (get_users s)
            <> fst (get_users (new_session (mkDB [] items) fs'))).
Proof.
  intros Hf. destruct s as [d c p fs0]. simpl in Hf. subst fs0.
  split; [reflexivity|]. split; [reflexivity|]. split; [|split].
  - intros s'. split; [apply get_item_total|apply get_users_total].
  - intros us fs'. destruct fs' as [|[] fs']; reflexivity.
  - intros items fs' Hhd. destruct fs' as [|[] fs']; simpl in Hhd;
      try discriminate Hhd; (split; [reflexivity|discriminate]).
Qed.

Lemma list_all_store_fault_shapes_witness :
  faults (new_session sample_db [true]) = [true]
  /\ fst (get_item (new_session sample_db [true])) = Ok []
  /\ fst (get_users (new_session sample_db [true])) = Ok None.
Proof.
  split; [reflexivity|].
  destruct (list_all_store_fault_shapes (new_session sample_db [true]) []
              eq_refl) as (H1 & H2 & _).
  split; assumption.
Defined.

(** ** Deletion *)

Lemma by_item_id_head item_id l row rest :
  filter (by_item_id item_id) l = row :: rest -> ItemRow.item_id row = item_id.
Proof.
  intros H. apply filter_head_true in H. unfold by_item_id in H.
  apply Z.eqb_eq in H. exact H.
Qed.

Lemma by_user_id_head user_id l row rest :
  filter (by_user_id user_id) l = row :: rest -> UserRow.user_id row = user_id.
Proof.
  intros H. apply filter_head_true in H. unfold by_user_id in H.
  apply String.eqb_eq in H. exact H.
Qed.

Lemma delete_item_contract (s : Session) (item_id : Z) :
  clean s ->
  exists b s',
    delete_item item_id s = (Ok b, s') /\ clean s'
    /\ (b = true ->
        (exists row,
            filter (by_item_id item_id) (todo_item (committed s)) = [row])
        /\ committed s'
           = mkDB (todo_user (committed s))
               (filter (fun r => negb (by_item_id item_id r))
                       (todo_item (committed s))))
    /\ (b = false -> committed s' = committed s).
Proof.
  destruct s as [d c p fs]. intros [Hp Hd]. simpl in *. subst.
  unfold delete_item, delete_item_on. unfold_monad. simpl.
  destruct (filter (by_item_id item_id) (todo_item c))
    as [|row [|row2 rest]] eqn:Ef.
  all: try (apply by_item_id_head in Ef as Hid; subst item_id).
  all: destruct fs as [|[] [|[] fs]]; simpl.
  all: rewrite ?Ef; simpl.
  all: do 2 eexists; (split; [reflexivity|]); unfold clean; simpl;
    repeat split; try congruence; eauto.
Qed.

Lemma delete_user_contract (s : Session) (user_id : string) :
  clean s ->
  exists b s',
    delete_user user_id s = (Ok b, s') /\ clean s'
    /\ (b = true ->
        (exists row,
            filter (by_user_id user_id) (todo_user (committed s)) = [row])
        /\ filter (owned_by user_id) (todo_item (committed s)) = []
        /\ committed s'
           = mkDB (filter (fun r => negb (by_user_id user_id r))
                          (todo_user (committed s)))
               (todo_item (committed s)))
    /\ (b = false -> committed s' = committed s).
Proof.
  destruct s as [d c p fs]. intros [Hp Hd]. simpl in *. subst.
  unfold delete_user, delete_user_on. unfold_monad. simpl.
  destruct (filter (by_user_id user_id) (todo_user c))
    as [|row [|row2 rest]] eqn:Ef.
  all: try (apply by_user_id_head in Ef as Hid; subst user_id).
  all: destruct fs as [|[] [|[] fs]]; simpl.
  all: rewrite ?Ef; simpl.
  all: try (destruct (filter (owned_by (UserRow.user_id row)) (todo_item c))
              eqn:Eo; simpl).
  all: do 2 eexists; (split; [reflexivity|]); unfold clean; simpl;
    repeat split; try congruence; eauto.
Qed.

(** The failure branch of the writing operations, [except Exception:
    await session.rollback(); return x]: what leaves it is what the rollback
    raised. *)
Lemma failure_branch_raises {A} (m : M A) (rb : M unit) (x : A)
  (s : Session) (e : exn) :
  fst (try_except m (fun _ => bind rb (fun _ => ret x)) s) = Raise e ->
  exists s0, fst (rb s0) = Raise e.
Proof.
  unfold try_except, bind, ret.
  destruct (m s) as [[a|e0] s0]; simpl; [discriminate|].
  intros H. exists s0. destruct (rb s0) as [[u|e1] s1]; simpl in *;
    [discriminate|congruence].
Qed.








(** ** Deleting a user who owns items *)

(** [delete_user] never removes a row of [todo_item]. *)
Lemma delete_user_keeps_items (s : Session) (user_id : string) :
  clean s ->
  todo_item (committed (snd (delete_user user_id s))) = todo_item (committed s).
Proof.
  intros Hc.
  destruct (delete_user_contract s user_id Hc) as (b & s' & H & _ & Ht & Hf).
  rewrite H. simpl. destruct b.
  - destruct (Ht eq_refl) as (_ & _ & Hdb). rewrite Hdb. reflexivity.
  - rewrite (Hf eq_refl). reflexivity.
Qed.

(** What an answer [true] of [delete_user] tells about the items: the user
    owned none when the call was made. *)
Lemma delete_user_true_no_items (s s' : Session) (user_id : string) :
  clean s ->
  delete_user user_id s = (Ok true, s') ->
  filter (owned_by user_id) (todo_item (committed s)) = [].
Proof.
  intros Hc H.
  destruct (delete_user_contract s user_id Hc) as (b & s1 & H1 & _ & Ht & _).
  rewrite H in H1. inversion H1; subst.
  destruct (Ht eq_refl) as (_ & Ho & _). exact Ho.
Qed.

(** With user "u1" owning one item, [delete_user "u1"] answers [false]: the
    flush fails on the NOT NULL [user_id] of the item, the transaction is
    rolled back, the user and the item stay, and [get_item_by_user_id "u1"]
    still lists the item.  The foreign key is declared SET NULL, not CASCADE,
    and the relationship has no delete cascade. *)
Lemma delete_user_owning_items :
  delete_user "u1" (new_session sample_db [])
  = (Ok false, new_session sample_db [])
  /\ fst (get_item_by_user_id "u1"
            (snd (delete_user "u1" (new_session sample_db [])))) = Ok [milk]
  /\ Item_user_id_ondelete = SET_NULL
  /\ Item_user_id_nullable = false
  /\ User_items_cascade_delete = false.
Proof.
  repeat split.
Qed.



(** ** Updating a user *)

(** C3, counterexample.  [update_user "u1"] with a candidate whose [user_id]
    is "u2" succeeds and the stored record, which had [user_id] "u1", has
    [user_id] "u2" afterwards. *)
Lemma update_user_rewrites_user_id :
  fst (update_user "u1" bob (new_session sample_db [])) = Ok (Some bob)
  /\ map UserRow.user_id (todo_user (committed (new_session sample_db [])))
     = ["u1"]
  /\ map UserRow.user_id
       (todo_user (committed (snd (update_user "u1" bob
                                     (new_session sample_db [])))))
     = ["u2"].
Proof.
  repeat split.
Qed.

(** ** Tokens that do not verify *)

(** C4. A token that is not a JWS at all, and a token signed with another
    key, both leave [get_current_user] with an [AttributeError]: the second
    [except] clause names [jwt.JWTError], which the package does not have. *)
Theorem invalid_token_attribute_error (s : Session) (now : datetime) :
  get_current_user (Garbage "not-a-token") now s
  = (Raise (AttributeError "module 'jwt' has no attribute 'JWTError'"), s)
  /\ get_current_user
       (Jws "HS256" forged_claims (hmac "another-key" forged_claims)) now s
     = (Raise (AttributeError "module 'jwt' has no attribute 'JWTError'"), s).
Proof.
  split; reflexivity.
Qed.

Lemma has_user_of_filter c uid row rest :
  filter (by_user_id uid) (todo_user c) = row :: rest -> has_user c uid = true.
Proof. intros H. unfold has_user. eapply filter_cons_existsb. exact H. Qed.

(** ** Authentication leaves the rows alone *)

Lemma get_user_by_id_rows s user_id :
  clean s -> same_rows s (snd (get_user_by_id user_id s)).
Proof.
  destruct s as [d c p fs]. intros [Hp Hd]. simpl in *. subst.
  unfold get_user_by_id. unfold_monad. simpl.
  destruct fs as [|[] fs]; simpl.
  all: destruct (filter (by_user_id user_id) (todo_user c)) as [|r [|r2 rest]];
    simpl.
  all: try (destruct (UserSchema_model_validate (UserModel_of_row r)); simpl).
  all: repeat split.
Qed.

Lemma except_chain_state {A} (e : exn) (h1 h2 : exn) (s1 : Session) :
  snd (except_jwt (A:=A) "ExpiredSignatureError" e (raise h1)
         (except_jwt "JWTError" e (raise h2) (raise e)) s1) = s1.
Proof.
  unfold except_jwt. simpl.
  destruct (isinstance e cls_ExpiredSignatureError); reflexivity.
Qed.

Lemma get_current_user_rows s credentials now :
  clean s -> same_rows s (snd (get_current_user credentials now s)).
Proof.
  intros Hc. unfold get_current_user, try_except, bind, lift.
  destruct (jwt_decode credentials SECRET_KEY [ALGORITHM] now) as [c|e].
  - destruct (claim_user_id c) as [uid|].
    + pose proof (get_user_by_id_rows s uid Hc) as H.
      destruct (get_user_by_id uid s) as [[[u|]|e] s1]; simpl in H.
      * exact H.
      * simpl. exact H.
      * cbv beta iota. rewrite except_chain_state. exact H.
    + simpl. repeat split.
  - cbv beta iota. rewrite except_chain_state. repeat split.
Qed.

Lemma same_rows_clean s s1 : clean s -> same_rows s s1 -> clean s1.
Proof.
  intros [Hp Hd] (H1 & H2 & H3). split; congruence.
Qed.

(** ** The update handler *)

Lemma update_item_endpoint_raises_only_400 s item_id item u e :
  fst (update_item_endpoint item_id item u s) = Raise e ->
  e = HTTPException 400 "Failed to update item".
Proof.
  unfold update_item_endpoint, try_except, raise_bad_request, raise.
  match goal with
  | |- context [match ?m s with _ => _ end] => destruct (m s) as [[a|e'] s1]
  end; simpl; intros H; congruence.
Qed.

Lemma update_item_missing s item_id item :
  pending s = [] ->
  filter (by_item_id item_id) (todo_item (db s)) = [] ->
  fst (update_item item_id item s) = Ok None.
Proof.
  destruct s as [d c p fs]. simpl. intros Hp Hf. subst.
  unfold update_item, update_item_on. unfold_monad. simpl.
  destruct fs as [|[] fs]; simpl; rewrite ?Hf; reflexivity.
Qed.

(** C10. An authenticated PUT on an item id that no stored item has is
    answered with the 400 failure "Failed to update item": the handler's own
    404 is raised inside its [try] and rewritten by the generic [except].  No
    failure of the handler is anything else than that 400. *)
Theorem put_missing_item_is_bad_request
  (s s1 : Session) (credentials : token) (now : datetime) (item_id : Z)
  (item : ItemSchema.t) (current_user : UserSchema.t) :
  clean s ->
  get_current_user credentials now s = (Ok current_user, s1) ->
  filter (by_item_id item_id) (todo_item (db s)) = [] ->
  fst (PUT_items credentials now item_id item s)
  = Raise (HTTPException 400 "Failed to update item")
  /\ (forall s2 i it e,
        fst (update_item_endpoint i it current_user s2) = Raise e ->
        e = HTTPException 400 "Failed to update item").
Proof.
  intros Hc Hu Hf. split.
  - pose proof (get_current_user_rows s credentials now Hc) as Hr.
    rewrite Hu in Hr. simpl in Hr. destruct Hr as (Hdb & _ & Hp).
    destruct Hc as [Hp0 _]. rewrite Hp0 in Hp. rewrite <- Hdb in Hf.
    unfold PUT_items, authenticated, bind. rewrite Hu.
    unfold update_item_endpoint, try_except, bind.
    pose proof (update_item_missing s1 item_id
                  (ItemSchema_set_user_id item (UserSchema.user_id current_user))
                  Hp Hf) as H.
    destruct (update_item item_id _ s1) as [r s2]. simpl in H. subst r.
    reflexivity.
  - intros s2 i it e H.
    apply update_item_endpoint_raises_only_400 in H. exact H.
Qed.

Lemma put_missing_item_is_bad_request_witness :
  clean (new_session sample_db [])
  /\ fst (PUT_items (create_access_token "u1" 0) 10 7 milk
            (new_session sample_db []))
     = Raise (HTTPException 400 "Failed to update item").
Proof.
  split; [split; reflexivity|].
  destruct (put_missing_item_is_bad_request (new_session sample_db [])
              (new_session sample_db []) (create_access_token "u1" 0) 10 7
              milk alice (conj eq_refl eq_refl) eq_refl eq_refl) as [H _].
  exact H.
Defined.

(** ** Issued tokens *)

Lemma UserSchema_model_validate_row r v :
  UserSchema_model_validate (UserModel_of_row r) = Ok v ->
  UserSchema.user_id v = UserRow.user_id r
  /\ UserSchema.name v = UserRow.name r
  /\ UserSchema.password v = UserRow.password r.
Proof.
  unfold UserSchema_model_validate. simpl.
  destruct (_ && _); intros H; inversion H; subst; simpl; auto.
Qed.

Lemma get_user_by_id_user_id s s1 user_id usr :
  get_user_by_id user_id s = (Ok (Some usr), s1) ->
  UserSchema.user_id usr = user_id.
Proof.
  destruct s as [d c p fs]. unfold get_user_by_id. unfold_monad. simpl.
  intros H.
  destruct fs as [|[] fs]; simpl in H; try discriminate.
  all: destruct (flush_ops d None p) as [[d' k]|e]; simpl in H; try discriminate.
  all: destruct (filter (by_user_id user_id) (todo_user d'))
    as [|r [|r2 rest]] eqn:Ef; simpl in H; try discriminate.
  all: destruct (UserSchema_model_validate (UserModel_of_row r)) eqn:Ev;
    simpl in H; try discriminate.
  all: inversion H; subst.
  all: apply UserSchema_model_validate_row in Ev; destruct Ev as [Ev _].
  all: rewrite Ev; eapply by_user_id_head; exact Ef.
Qed.

(** On the clock of whole seconds: let [get_user_by_id user_id] find the
    user [usr] on the session.  A token that [create_access_token user_id]
    issued in the second [issued] is resolved by [get_current_user] to [usr],
    whose [user_id] is the one the token was issued for, in every second
    before [issued] plus 24 hours.  From that second on the resolution fails
    with the 401 of the expired token, on any session. *)
Lemma issued_token_resolves_until_expiry
  (s s1 : Session) (user_id : string) (usr : UserSchema.t)
  (issued now : datetime) :
  get_user_by_id user_id s = (Ok (Some usr), s1) ->
  (now < issued + timedelta_hours 24 ->
   get_current_user (create_access_token user_id issued) now s = (Ok usr, s1)
   /\ UserSchema.user_id usr = user_id)
  /\ (issued + timedelta_hours 24 <= now ->
      forall s',
        get_current_user (create_access_token user_id issued) now s'
        = (Raise (HTTPException 401 detail_token_expired), s')).
Proof.
  intros Hu. unfold timedelta_hours.
  assert (forall c, tag_eqb (hmac SECRET_KEY c) (hmac SECRET_KEY c) = true)
    as Htag by (intros; apply tag_eqb_refl).
  split.
  - intros Hlt. split; [|eapply get_user_by_id_user_id; exact Hu].
    unfold get_current_user, create_access_token, jwt_encode, jwt_decode,
      timedelta_hours, try_except, bind, lift.
    rewrite Htag. simpl.
    destruct (Z.leb _ now) eqn:E; [apply Z.leb_le in E; lia|].
    simpl. rewrite Hu. reflexivity.
  - intros Hge s'.
    unfold get_current_user, create_access_token, jwt_encode, jwt_decode,
      timedelta_hours, try_except, bind, lift.
    rewrite Htag. simpl.
    destruct (Z.leb _ now) eqn:E; [|apply Z.leb_gt in E; lia].
    reflexivity.
Qed.

(** The whole seconds of a reading of the clock lie below [n] exactly when
    the reading lies below [n] seconds. *)
Lemma seconds_of_lt (t : instant) (n : Z) :
  seconds_of t < n <-> t < n * 1000000.
Proof.
  unfold seconds_of.
  pose proof (Z.div_mod t 1000000 ltac:(lia)) as Hd.
  pose proof (Z.mod_pos_bound t 1000000 ltac:(lia)) as Hm.
  split; intros H; nia.
Qed.

(** The expiry test of [jwt.decode] on the clock: the whole number [exp]
    against the reading [now]. *)
Lemma expired_on_the_clock (exp : Z) (now : instant) :
  (exp <=? seconds_of now) = (exp * 1000000 <=? now).
Proof.
  destruct (exp * 1000000 <=? now) eqn:E.
  - apply Z.leb_le in E. apply Z.leb_le.
    destruct (Z.le_gt_cases exp (seconds_of now)) as [H|H]; [exact H|].
    apply seconds_of_lt in H. lia.
  - apply Z.leb_gt in E. apply Z.leb_gt. apply seconds_of_lt. exact E.
Qed.

Lemma create_access_token_at_seconds (user_id : string) (utcnow : instant) :
  create_access_token_at user_id utcnow
  = create_access_token user_id (seconds_of utcnow).
Proof.
  unfold create_access_token_at, create_access_token, timedelta_hours_at,
    timedelta_hours, seconds_of.
  replace (utcnow + 24 * 3600 * 1000000) with (utcnow + 86400 * 1000000)
    by lia.
  rewrite Z.div_add by lia. reflexivity.
Qed.

(** C2, counterexample.  A token issued half a second after the epoch is
    presented 0.3 seconds before 24 hours have passed since it was issued,
    for a user that is stored: the resolution fails with the 401 of the
    expired token. *)
Lemma token_expires_within_the_last_second :
  86400200000 < 500000 + timedelta_hours_at 24
  /\ fst (get_user_by_id "u1" (new_session sample_db [])) = Ok (Some alice)
  /\ get_current_user_at (create_access_token_at "u1" 500000) 86400200000
       (new_session sample_db [])
     = (Raise (HTTPException 401 detail_token_expired),
        new_session sample_db []).
Proof.
  repeat split.
Qed.

(** C2, amended.  Let [get_user_by_id user_id] find the user [usr] on the
    session.  A token that [create_access_token user_id] issued when the
    clock read [issued] is resolved by [get_current_user] to [usr], whose
    [user_id] is the one the token was issued for, at every reading of the
    clock before [expiry_of issued]; from that reading on the resolution
    fails with the 401 of the expired token, on any session.  The expiry is
    24 hours after the whole second in which the token was issued: more than
    24 hours less one second, and at most 24 hours, after the issue. *)
Theorem issued_token_expiry_on_the_clock
  (s s1 : Session) (user_id : string) (usr : UserSchema.t)
  (issued now : instant) :
  get_user_by_id user_id s = (Ok (Some usr), s1) ->
  (now < expiry_of issued ->
   get_current_user_at (create_access_token_at user_id issued) now s
   = (Ok usr, s1)
   /\ UserSchema.user_id usr = user_id)
  /\ (expiry_of issued <= now ->
      forall s',
        get_current_user_at (create_access_token_at user_id issued) now s'
        = (Raise (HTTPException 401 detail_token_expired), s'))
  /\ issued + timedelta_hours_at 24 - 1000000 < expiry_of issued
  /\ expiry_of issued <= issued + timedelta_hours_at 24.
Proof.
  intros Hu. unfold get_current_user_at. rewrite create_access_token_at_seconds.
  destruct (issued_token_resolves_until_expiry s s1 user_id usr
              (seconds_of issued) (seconds_of now) Hu) as [H1 H2].
  unfold expiry_of.
  repeat split.
  - apply H1. apply seconds_of_lt. exact H.
  - apply H1. apply seconds_of_lt. exact H.
  - intros Hexp s'. apply H2.
    destruct (Z.le_gt_cases (seconds_of issued + timedelta_hours 24)
                (seconds_of now)) as [Hle|Hgt]; [exact Hle|].
    apply seconds_of_lt in Hgt. lia.
  - unfold timedelta_hours_at, timedelta_hours, seconds_of.
    pose proof (Z.div_mod issued 1000000 ltac:(lia)) as Hd.
    pose proof (Z.mod_pos_bound issued 1000000 ltac:(lia)) as Hm. lia.
  - unfold timedelta_hours_at, timedelta_hours, seconds_of.
    pose proof (Z.div_mod issued 1000000 ltac:(lia)) as Hd.
    pose proof (Z.mod_pos_bound issued 1000000 ltac:(lia)) as Hm. lia.
Qed.

Lemma issued_token_expiry_on_the_clock_witness :
  get_current_user_at (create_access_token_at "u1" 500000) 86399999999
    (new_session sample_db [])
  = (Ok alice, new_session sample_db [])
  /\ get_current_user_at (create_access_token_at "u1" 500000) 86400000000
       (new_session sample_db [])
     = (Raise (HTTPException 401 detail_token_expired),
        new_session sample_db []).
Proof.
  destruct (issued_token_expiry_on_the_clock (new_session sample_db [])
              (new_session sample_db []) "u1" alice 500000 86399999999 eq_refl)
    as (H1 & _).
  destruct (issued_token_expiry_on_the_clock (new_session sample_db [])
              (new_session sample_db []) "u1" alice 500000 86400000000 eq_refl)
    as (_ & H2 & _).
  split.
  - apply H1. reflexivity.
  - apply H2. discriminate.
Defined.

(** ** Which operations change a stored [user_id] *)

Ltac split_cases :=
  repeat match goal with
         | |- context [match filter ?f ?l with _ => _ end] =>
             let E := fresh "E" in destruct (filter f l) eqn:E; simpl
         | |- context [match ?x with _ => _ end] =>
             lazymatch x with
             | context [match _ with _ => _ end] => fail
             | _ => let E := fresh "E" in destruct x eqn:E; simpl
             end
         end.

Ltac keeps_users_tac :=
  let s := fresh "s" in
  let d := fresh "d" in let c := fresh "c" in
  let p := fresh "p" in let fs := fresh "fs" in
  intros s; destruct s as [d c p fs]; intros [Hp Hd]; simpl in *; subst;
  unfold stored_users; unfold_monad; simpl; split_cases; reflexivity.

Lemma readers_keep_users :
  keeps_users get_item
  /\ (forall u, keeps_users (get_item_by_user_id u))
  /\ (forall i, keeps_users (get_item_by_id i))
  /\ (forall u p, keeps_users (get_user_by_id_and_password u p))
  /\ (forall u, keeps_users (get_user_by_id u))
  /\ keeps_users get_users.
Proof.
  repeat split; intros;
    unfold get_item, get_item_by_user_id, get_item_by_id,
      get_user_by_id_and_password, get_user_by_id, get_users;
    keeps_users_tac.
Qed.

Lemma item_writers_keep_users :
  (forall i, keeps_users (delete_item i))
  /\ (forall it, keeps_users (create_item it))
  /\ (forall i it, keeps_users (update_item i it))
  /\ (forall i fd, keeps_users (update_finished_date i fd)).
Proof.
  repeat split; intros;
    unfold delete_item, delete_item_on, create_item, create_item_on,
      update_item, update_item_on, update_finished_date,
      update_finished_date_on;
    keeps_users_tac.
Qed.

Lemma overwrite_user_ids (user_id : string) (user_data : UserSchema.t)
  (l : list UserRow.t) (row : UserRow.t) :
  filter (by_user_id user_id) l = [row] ->
  (map UserRow.user_id (overwrite_user user_id user_data l)
   = map UserRow.user_id l
   <-> UserSchema.user_id user_data = user_id).
Proof.
  intros Ef. unfold overwrite_user. split.
  - intros H.
    assert (In row l /\ by_user_id user_id row = true) as [Hin Hrow].
    { apply filter_In. rewrite Ef. left. reflexivity. }
    clear Ef. induction l as [|x l IH]; [destruct Hin|].
    simpl in H. inversion H as [[Hx Hl]].
    destruct Hin as [Hin|Hin].
    + subst x. rewrite Hrow in Hx. simpl in Hx.
      unfold by_user_id in Hrow. apply String.eqb_eq in Hrow. congruence.
    + apply IH; assumption.
  - intros Heq. rewrite map_map. apply map_ext. intros a.
    destruct (by_user_id user_id a) eqn:Ea; [|reflexivity].
    simpl. unfold by_user_id in Ea. apply String.eqb_eq in Ea. congruence.
Qed.

Lemma update_user_outcome (s : Session) (user_id : string)
  (user_data : UserSchema.t) :
  clean s ->
  (fst (update_user user_id user_data s) = Ok None
   /\ stored_users (snd (update_user user_id user_data s)) = stored_users s)
  \/ (exists row,
         filter (by_user_id user_id) (stored_users s) = [row]
         /\ stored_users (snd (update_user user_id user_data s))
            = overwrite_user user_id user_data (stored_users s)
         /\ forall r,
             fst (update_user user_id user_data s) = Ok (Some r) ->
             UserSchema.user_id r = UserSchema.user_id user_data).
Proof.
  destruct s as [d c p fs]. intros [Hp Hd]. simpl in *. subst.
  unfold stored_users. simpl.
  destruct user_data as [uid' n' p' fs'].
  unfold update_user, update_user_on. unfold_monad. simpl.
  destruct (filter (by_user_id user_id) (todo_user c))
    as [|row [|row2 rest]] eqn:Ef.
  all: destruct fs as [|[] [|[] [|[] fs]]]; simpl.
  all: rewrite ?Ef; simpl; try (left; split; reflexivity).
  all: pose proof (by_user_id_head _ _ _ _ Ef) as Hid; subst user_id.
  all: rewrite (has_user_of_filter _ _ _ _ Ef); simpl.
  all: destruct (negb (uid' =? UserRow.user_id row)%string && has_user c uid')
         eqn:Ec; simpl; try (left; split; reflexivity).
  all: right; exists row; split; [reflexivity|].
  all: try match goal with
           | |- context [filter ?f (map ?g ?l)] =>
               destruct (filter f (map g l)) as [|x xs] eqn:Er
           end; simpl.
  all: try match goal with
           | |- context [UserSchema_model_validate ?o] =>
               destruct (UserSchema_model_validate o) as [v|e] eqn:Ev
           end; simpl.
  all: split; [reflexivity|intros r Hr; try discriminate Hr].
  all: inversion Hr; subst r.
  all: apply filter_head_true in Er; apply String.eqb_eq in Er.
  all: apply UserSchema_model_validate_row in Ev; destruct Ev as [Ev _].
  all: simpl; congruence.
Qed.

Lemma create_user_outcome (s : Session) (u : UserSchema.t) :
  clean s ->
  stored_users (snd (create_user u s)) = stored_users s
  \/ (has_user (committed s) (UserSchema.user_id u) = false
      /\ stored_users (snd (create_user u s))
         = (stored_users s ++ [UserRow_of_schema u])%list).
Proof.
  destruct s as [d c p fs]. intros [Hp Hd]. simpl in *. subst.
  unfold stored_users. simpl. destruct u as [uid n pw ufs].
  unfold create_user, create_user_on. unfold_monad. simpl.
  destruct (has_user c uid) eqn:Eh.
  - left. destruct fs as [|[] fs]; simpl; rewrite ?Eh; reflexivity.
  - destruct fs as [|[] [|[] fs]]; simpl; rewrite ?Eh; simpl;
      try (left; reflexivity).
    all: right; split; [reflexivity|].
    all: try match goal with
             | |- context [filter ?f ?l] => destruct (filter f l) as [|x xs]
             end; simpl.
    all: try match goal with
             | |- context [UserSchema_model_validate ?o] =>
                 destruct (UserSchema_model_validate o)
             end; reflexivity.
Qed.

Lemma delete_user_outcome (s : Session) (user_id : string) :
  clean s ->
  stored_users (snd (delete_user user_id s)) = stored_users s
  \/ stored_users (snd (delete_user user_id s))
     = filter (fun r => negb (by_user_id user_id r)) (stored_users s).
Proof.
  intros Hc.
  destruct (delete_user_contract s user_id Hc) as (b & s' & H & _ & Ht & Hf).
  rewrite H. simpl. unfold stored_users. destruct b.
  - right. destruct (Ht eq_refl) as (_ & _ & Hdb). rewrite Hdb. reflexivity.
  - left. rewrite (Hf eq_refl). reflexivity.
Qed.

Lemma filter_overwrite_none {A} (f g : A -> bool) (y : A) (l : list A) :
  filter f l = [] -> existsb g l = false ->
  filter g (map (fun r => if f r then y else r) l) = [].
Proof.
  induction l as [|a l IH]; simpl; intros Hf Hg; [reflexivity|].
  apply orb_false_iff in Hg. destruct Hg as [Ha Hl].
  destruct (f a) eqn:Ea; [discriminate Hf|].
  rewrite Ha. auto.
Qed.

Lemma filter_overwrite_fresh {A} (f g : A -> bool) (y row : A) (l : list A) :
  filter f l = [row] -> existsb g l = false -> g y = true ->
  filter g (map (fun r => if f r then y else r) l) = [y].
Proof.
  induction l as [|a l IH]; simpl; intros Hf Hg Hy; [discriminate Hf|].
  apply orb_false_iff in Hg. destruct Hg as [Ha Hl].
  destruct (f a) eqn:Ea.
  - rewrite Hy. f_equal.
    assert (filter f l = []) as Hrest by (inversion Hf; reflexivity).
    apply filter_overwrite_none; assumption.
  - rewrite Ha. auto.
Qed.

Lemma update_user_success (c : DB) (user_id : string)
  (user_data : UserSchema.t) (row : UserRow.t) :
  filter (by_user_id user_id) (todo_user c) = [row] ->
  UserSchema.user_id user_data = user_id
  \/ has_user c (UserSchema.user_id user_data) = false ->
  validated_user user_data ->
  update_user user_id user_data (new_session c [])
  = (Ok (Some (UserSchema_of_row (UserRow_of_schema user_data))),
     new_session
       (mkDB (overwrite_user user_id user_data (todo_user c)) (todo_item c))
       []).
Proof.
  intros Ef Hfree (Hl1 & Hl2 & Hl3).
  destruct user_data as [uid' n' p' fs']. simpl in *.
  pose proof (by_user_id_head _ _ _ _ Ef) as Hid.
  unfold update_user, update_user_on, new_session. unfold_monad. simpl.
  rewrite Ef. simpl. rewrite Hid.
  rewrite (has_user_of_filter _ _ _ _ Ef). simpl.
  assert (negb (uid' =? user_id)%string && has_user c uid' = false) as Hc.
  { destruct Hfree as [H|H].
    - subst uid'. rewrite String.eqb_refl. reflexivity.
    - rewrite H. apply andb_false_r. }
  rewrite Hc. simpl.
  assert (filter (fun r => (UserRow.user_id r =? uid')%string)
            (map (fun r => if (UserRow.user_id r =? user_id)%string
                           then UserRow.mk uid' n' p' else r) (todo_user c))
          = [UserRow.mk uid' n' p']) as Hr.
  { destruct Hfree as [H|H].
    - subst uid'.
      rewrite (filter_replace (fun r => (UserRow.user_id r =? user_id)%string)
                 (UserRow.mk user_id n' p') (todo_user c))
        by (simpl; apply String.eqb_refl).
      unfold by_user_id in Ef. rewrite Ef. reflexivity.
    - apply (filter_overwrite_fresh
               (fun r => (UserRow.user_id r =? user_id)%string)
               (fun r => (UserRow.user_id r =? uid')%string)
               (UserRow.mk uid' n' p') row (todo_user c)).
      + exact Ef.
      + exact H.
      + simpl. apply String.eqb_refl. }
  rewrite Hr. simpl.
  unfold UserSchema_model_validate. simpl. rewrite Hl1, Hl2, Hl3. simpl.
  reflexivity.
Qed.

(** C3, amended.  The [user_id] of a stored user record is changed by one
    repository operation only, [update_user], and by it exactly when the
    candidate carries another [user_id] than the one the record was looked
    up by.  On a clean session [update_user user_id user_data] either
    answers [None] and leaves the user rows as they are, or found exactly
    one stored row for [user_id] and stored every field of the candidate
    over it, [user_id] included: the stored [user_id]s are then the same as
    before exactly when the candidate's [user_id] is [user_id], and an
    answer carries the candidate's [user_id].  When no store round trip
    fails, one row matches, the candidate is valid and its [user_id] is the
    old one or a free one, the update succeeds in that way.  [create_user]
    only appends a row with a [user_id] that was free, [delete_user] only
    removes the rows of its [user_id], and the other operations of the two
    repositories leave the user rows as they are. *)
Theorem user_id_changes_only_by_update (s : Session) :
  clean s ->
  (forall user_id user_data,
      ((fst (update_user user_id user_data s) = Ok None
        /\ stored_users (snd (update_user user_id user_data s))
           = stored_users s)
       \/ (exists row,
              filter (by_user_id user_id) (stored_users s) = [row]
              /\ stored_users (snd (update_user user_id user_data s))
                 = overwrite_user user_id user_data (stored_users s)
              /\ (map UserRow.user_id
                    (stored_users (snd (update_user user_id user_data s)))
                  = map UserRow.user_id (stored_users s)
                  <-> UserSchema.user_id user_data = user_id)
              /\ forall r,
                  fst (update_user user_id user_data s) = Ok (Some r) ->
                  UserSchema.user_id r = UserSchema.user_id user_data))
      /\ (forall row,
             faults s = [] ->
             filter (by_user_id user_id) (stored_users s) = [row] ->
             UserSchema.user_id user_data = user_id
             \/ has_user (committed s) (UserSchema.user_id user_data) = false ->
             validated_user user_data ->
             update_user user_id user_data s
             = (Ok (Some (UserSchema_of_row (UserRow_of_schema user_data))),
                new_session
                  (mkDB (overwrite_user user_id user_data (stored_users s))
                     (todo_item (committed s))) [])))
  /\ (forall u,
         stored_users (snd (create_user u s)) = stored_users s
         \/ (has_user (committed s) (UserSchema.user_id u) = false
             /\ stored_users (snd (create_user u s))
                = (stored_users s ++ [UserRow_of_schema u])%list))
  /\ (forall user_id,
         stored_users (snd (delete_user user_id s)) = stored_users s
         \/ stored_users (snd (delete_user user_id s))
            = filter (fun r => negb (by_user_id user_id r)) (stored_users s))
  /\ stored_users (snd (get_users s)) = stored_users s
  /\ (forall user_id,
         stored_users (snd (get_user_by_id user_id s)) = stored_users s)
  /\ (forall user_id password,
         stored_users (snd (get_user_by_id_and_password user_id password s))
         = stored_users s)
  /\ stored_users (snd (get_item s)) = stored_users s
  /\ (forall user_id,
         stored_users (snd (get_item_by_user_id user_id s)) = stored_users s)
  /\ (forall item_id,
         stored_users (snd (get_item_by_id item_id s)) = stored_users s)
  /\ (forall item, stored_users (snd (create_item item s)) = stored_users s)
  /\ (forall item_id item,
         stored_users (snd (update_item item_id item s)) = stored_users s)
  /\ (forall item_id fd,
         stored_users (snd (update_finished_date item_id fd s))
         = stored_users s)
  /\ (forall item_id,
         stored_users (snd (delete_item item_id s)) = stored_users s).
Proof.
  intros Hc.
  destruct readers_keep_users as (R1 & R2 & R3 & R4 & R5 & R6).
  destruct item_writers_keep_users as (W1 & W2 & W3 & W4).
  unfold keeps_users in *.
  split; [|split; [|split]].
  - intros user_id user_data. split.
    + destruct (update_user_outcome s user_id user_data Hc)
        as [H|(row & Ef & Hu & Hr)]; [left; exact H|right].
      exists row. repeat split; try assumption.
      * intros H. rewrite Hu in H.
        apply (overwrite_user_ids user_id user_data (stored_users s) row Ef).
        exact H.
      * intros H. rewrite Hu.
        apply (overwrite_user_ids user_id user_data (stored_users s) row Ef).
        exact H.
    + intros row Hf Ef Hfree Hv.
      destruct s as [d c p fs]. destruct Hc as [Hp Hd]. simpl in *. subst.
      apply (update_user_success c user_id user_data row); assumption.
  - intros u. apply create_user_outcome. exact Hc.
  - intros user_id. apply delete_user_outcome. exact Hc.
  - repeat split; intros; auto.
Qed.

Lemma user_id_changes_only_by_update_witness :
  clean (new_session sample_db [])
  /\ map UserRow.user_id
       (stored_users (snd (update_user "u1" alicia (new_session sample_db []))))
     = ["u1"]
  /\ map UserRow.user_id
       (stored_users (snd (update_user "u1" bob (new_session sample_db []))))
     <> ["u1"].
Proof.
  assert (clean (new_session sample_db [])) as Hc by (split; reflexivity).
  split; [exact Hc|].
  destruct (user_id_changes_only_by_update (new_session sample_db []) Hc)
    as (Hu & _).
  split.
  - destruct (Hu "u1" alicia) as [[[H _]|(row & _ & _ & Hiff & _)] _];
      [discriminate H|].
    apply Hiff. reflexivity.
  - destruct (Hu "u1" bob) as [[[H _]|(row & _ & _ & Hiff & _)] _];
      [discriminate H|].
    intros H. apply Hiff in H. discriminate H.
Defined.

(** ** Which fields a create applies *)

Lemma fold_left_max_ge (l : list Z) (a : Z) :
  a <= fold_left Z.max l a /\ forall x, In x l -> x <= fold_left Z.max l a.
Proof.
  revert a. induction l as [|y l IH]; intros a; simpl.
  - split; [lia|tauto].
  - destruct (IH (Z.max a y)) as [H1 H2]. split; [lia|].
    intros x [Hx|Hx]; [subst; lia|auto].
Qed.

Lemma next_rowid_fresh (d : DB) : has_item d (next_rowid d) = false.
Proof.
  unfold has_item, next_rowid.
  destruct (existsb _ _) eqn:E; [|reflexivity].
  apply existsb_exists in E. destruct E as (r & Hin & Hr).
  apply Z.eqb_eq in Hr.
  apply (in_map ItemRow.item_id) in Hin.
  destruct (map ItemRow.item_id (todo_item d)) as [|x xs]; [destruct Hin|].
  destruct (fold_left_max_ge xs x) as [H1 H2].
  destruct Hin as [Hx|Hx]; [|apply H2 in Hx]; lia.
Qed.

(** The instance [create_item] adds is built from the fields of the
    candidate that are set and from nothing else: the keys of the dump are
    the set fields, and an attribute whose field is not set stays [None],
    whatever the candidate holds there; the insert then gives such an item
    the store's default, the next rowid and no finished date.  [create_user]
    builds its instance from every field of the candidate, whatever its set
    of set fields says, so its outcome does not depend on that set. *)
Lemma create_applies_fields :
  (forall it : ItemSchema.t,
      let fs := ItemSchema.model_fields_set it in
      dict_keys (ItemSchema_model_dump true it)
      = filter (fun k => mem_string k fs) ItemSchema.fields
      /\ ItemModel_init (ItemSchema_model_dump true it)
         = Ok (ItemModel.mk
                 (if_set fs "item_id" (ItemSchema.item_id it))
                 (if_set fs "task_name" (Some (ItemSchema.task_name it)))
                 (if_set fs "user_id" (Some (ItemSchema.user_id it)))
                 (if_set fs "expire_date" (Some (ItemSchema.expire_date it)))
                 (if_set fs "finished_date" (ItemSchema.finished_date it))))
  /\ (forall (d : DB) tn uid ed,
         apply_uow d (Add_item (ItemModel.mk None (Some tn) (Some uid) (Some ed) None))
         = Ok (mkDB (todo_user d)
                 (todo_item d ++ [ItemRow.mk (next_rowid d) tn uid ed None]),
               Some (next_rowid d)))
  /\ (forall u : UserSchema.t,
         dict_keys (UserSchema_model_dump false u) = UserSchema.fields
         /\ UserModel_init (UserSchema_model_dump false u)
            = Ok (UserModel.mk (Some (UserSchema.user_id u))
                    (Some (UserSchema.name u))
                    (Some (UserSchema.password u))))
  /\ (forall uid n p fs fs' s,
         create_user (UserSchema.mk uid n p fs) s
         = create_user (UserSchema.mk uid n p fs') s).
Proof.
  split; [|split; [|split]].
  - intros [i tn uid ed fd fs]. simpl.
    unfold ItemSchema_model_dump, dump_filter, ItemModel_init, if_set,
      ItemSchema.fields. simpl.
    destruct (mem_string "item_id" fs), (mem_string "task_name" fs),
      (mem_string "user_id" fs), (mem_string "expire_date" fs),
      (mem_string "finished_date" fs); simpl;
      destruct i, fd; split; reflexivity.
  - intros d tn uid ed. simpl. rewrite next_rowid_fresh. reflexivity.
  - intros [uid n p fs]. split; reflexivity.
  - intros uid n p fs fs' s. reflexivity.
Qed.

(** ** Creating an item through the handler *)

Lemma ItemSchema_model_validate_row r v :
  ItemSchema_model_validate (ItemModel_of_row r) = Ok v ->
  v = ItemSchema.mk (Some (ItemRow.item_id r)) (ItemRow.task_name r)
        (ItemRow.user_id r) (ItemRow.expire_date r) (ItemRow.finished_date r)
        ItemSchema.fields.
Proof.
  unfold ItemSchema_model_validate. simpl.
  destruct (_ && _); intros H; inversion H; subst; simpl; auto.
Qed.

Lemma ItemModel_init_dump (it : ItemSchema.t) :
  let fs := ItemSchema.model_fields_set it in
  ItemModel_init (ItemSchema_model_dump true it)
  = Ok (ItemModel.mk
          (if_set fs "item_id" (ItemSchema.item_id it))
          (if_set fs "task_name" (Some (ItemSchema.task_name it)))
          (if_set fs "user_id" (Some (ItemSchema.user_id it)))
          (if_set fs "expire_date" (Some (ItemSchema.expire_date it)))
          (if_set fs "finished_date" (ItemSchema.finished_date it))).
Proof.
  destruct it as [i tn uid ed fd fs]. simpl.
  unfold ItemSchema_model_dump, dump_filter, ItemModel_init, if_set. simpl.
  destruct (mem_string "item_id" fs), (mem_string "task_name" fs),
    (mem_string "user_id" fs), (mem_string "expire_date" fs),
    (mem_string "finished_date" fs); simpl;
    destruct i, fd; reflexivity.
Qed.

Lemma create_item_user_id (s s' : Session) (it created : ItemSchema.t) :
  pending s = [] ->
  mem_string "user_id" (ItemSchema.model_fields_set it) = true ->
  create_item it s = (Ok (Some created), s') ->
  ItemSchema.user_id created = ItemSchema.user_id it.
Proof.
  destruct s as [d c p fs]. simpl. intros Hp Hset H. subst p.
  unfold create_item, create_item_on in H. rewrite ItemModel_init_dump in H.
  unfold if_set in H. rewrite Hset in H.
  remember (if mem_string "item_id" (ItemSchema.model_fields_set it)
            then ItemSchema.item_id it else None) as oid.
  remember (if mem_string "task_name" (ItemSchema.model_fields_set it)
            then Some (ItemSchema.task_name it) else None) as otn.
  remember (if mem_string "expire_date" (ItemSchema.model_fields_set it)
            then Some (ItemSchema.expire_date it) else None) as oed.
  remember (if mem_string "finished_date" (ItemSchema.model_fields_set it)
            then ItemSchema.finished_date it else None) as ofd.
  clear Heqoid Heqotn Heqoed Heqofd.
  unfold_monad. simpl in H.
  destruct fs as [|[] [|[] fs]]; simpl in H; try discriminate.
  all: match type of H with
       | context [has_item ?d0 ?pk] =>
           remember pk as rowid eqn:Epk; clear Epk;
           destruct (has_item d0 rowid) eqn:Eh
       end; simpl in H; try discriminate.
  all: destruct otn as [tn|], oed as [ed|]; simpl in H; try discriminate.
  all: unfold has_item in Eh; apply existsb_false_filter in Eh.
  all: rewrite filter_app, Eh in H; simpl in H; rewrite Z.eqb_refl in H;
    simpl in H.
  all: match type of H with
       | context [ItemSchema_model_validate ?o] =>
           destruct (ItemSchema_model_validate o) as [v|] eqn:Ev
       end; simpl in H; try discriminate.
  all: inversion H; subst; clear H.
  all: apply (ItemSchema_model_validate_row (ItemRow.mk _ _ _ _ _)) in Ev;
    subst; reflexivity.
Qed.

(** C5. When an authenticated request to create an item is answered with an
    item, that item's [user_id] is the [user_id] of the user the bearer token
    resolved to, whatever [user_id] the body of the request carried. *)
Theorem created_item_belongs_to_caller
  (s s' : Session) (credentials : token) (now : datetime)
  (item created : ItemSchema.t) :
  clean s ->
  POST_items credentials now item s = (Ok (Some created), s') ->
  exists current_user s1,
    get_current_user credentials now s = (Ok current_user, s1)
    /\ ItemSchema.user_id created = UserSchema.user_id current_user.
Proof.
  intros Hc H.
  pose proof (get_current_user_rows s credentials now Hc) as Hr.
  unfold POST_items, authenticated, bind in H.
  destruct (get_current_user credentials now s) as [[u|e] s1] eqn:Eu;
    [|discriminate].
  simpl in Hr. destruct Hr as (_ & _ & Hp). destruct Hc as [Hp0 _].
  rewrite Hp0 in Hp.
  exists u, s1. split; [reflexivity|].
  unfold create_item_endpoint, create_item_endpoint_on, try_except, bind, ret,
    raise_bad_request, raise in H.
  fold create_item in H.
  destruct (create_item (ItemSchema_set_user_id item (UserSchema.user_id u)) s1)
    as [[r|e] s2] eqn:Ec; [|discriminate].
  inversion H; subst.
  apply (create_item_user_id s1 s' _ created Hp) in Ec.
  - exact Ec.
  - reflexivity.
Qed.

Lemma created_item_belongs_to_caller_witness :
  clean (new_session sample_db [])
  /\ exists created s',
      POST_items (create_access_token "u1" 0) 10 tea (new_session sample_db [])
      = (Ok (Some created), s')
      /\ ItemSchema.user_id created = "u1".
Proof.
  split; [split; reflexivity|].
  eexists. eexists. split; [reflexivity|].
  destruct (created_item_belongs_to_caller (new_session sample_db []) _
              (create_access_token "u1" 0) 10 tea _ (conj eq_refl eq_refl)
              eq_refl) as (u & s1 & Hu & Hid).
  rewrite Hid. cbv in Hu. inversion Hu. reflexivity.
Defined.

(** ** What a create stores *)

(** C7. On a store that answers, [create_item] with a validated candidate
    whose primary key is free stores one new row and answers with it: the
    row holds the fields of the candidate that are set, and the store's
    default in the fields that are not set (the next rowid for [item_id], no
    [finished_date]), whatever the candidate holds there.  [create_user]
    with a validated candidate whose [user_id] is free stores one new row
    that holds every field of the candidate, and answers with it; its dump
    has all the fields, whatever the set of set fields says, while the dump
    of [create_item] has the set fields only. *)
Theorem create_item_set_fields_create_user_all_fields
  (c : DB) (it : ItemSchema.t) (u : UserSchema.t) :
  validated_item it ->
  int64 (create_item_pk c it) ->
  has_item c (create_item_pk c it) = false ->
  validated_user u ->
  has_user c (UserSchema.user_id u) = false ->
  create_item it (new_session c [])
  = (Ok (Some (ItemSchema_of_row (created_row c it))),
     new_session (mkDB (todo_user c) (todo_item c ++ [created_row c it])) [])
  /\ (mem_string "item_id" (ItemSchema.model_fields_set it) = false ->
      ItemRow.item_id (created_row c it) = next_rowid c)
  /\ (mem_string "finished_date" (ItemSchema.model_fields_set it) = false ->
      ItemRow.finished_date (created_row c it) = None)
  /\ dict_keys (ItemSchema_model_dump true it)
     = filter (fun k => mem_string k (ItemSchema.model_fields_set it))
         ItemSchema.fields
  /\ create_user u (new_session c [])
     = (Ok (Some (UserSchema_of_row (UserRow_of_schema u))),
        new_session
          (mkDB (todo_user c ++ [UserRow_of_schema u]) (todo_item c)) [])
  /\ dict_keys (UserSchema_model_dump false u) = UserSchema.fields.
Proof.
  intros (Htn & Huid & Hed & Hl1 & Hl2) _ Hfresh (Hu1 & Hu2 & Hu3) Hufresh.
  repeat split.
  - unfold create_item, create_item_on, new_session.
    rewrite ItemModel_init_dump.
    unfold created_row, create_item_pk in *.
    unfold if_set at 2 3 4. rewrite Htn, Huid, Hed.
    remember (if_set _ "item_id" _) as oid.
    remember (if_set _ "finished_date" _) as ofd.
    clear Heqoid Heqofd.
    unfold_monad. simpl.
    rewrite Hfresh. simpl.
    pose proof Hfresh as Hf'. unfold has_item in Hf'.
    apply existsb_false_filter in Hf'.
    rewrite filter_app, Hf'. simpl. rewrite Z.eqb_refl. simpl.
    unfold ItemSchema_model_validate. simpl. rewrite Hl1, Hl2. simpl.
    reflexivity.
  - intros Hset. unfold created_row, create_item_pk, if_set. simpl.
    rewrite Hset. reflexivity.
  - intros Hset. unfold created_row, if_set. simpl. rewrite Hset. reflexivity.
  - destruct (create_applies_fields) as (H & _). apply H.
  - destruct u as [uid n pw ufs]. simpl in *.
    unfold create_user, create_user_on, new_session. unfold_monad. simpl.
    rewrite Hufresh. simpl.
    pose proof Hufresh as Hf'. unfold has_user in Hf'.
    apply existsb_false_filter in Hf'.
    rewrite filter_app, Hf'. simpl. rewrite String.eqb_refl. simpl.
    unfold UserSchema_model_validate. simpl. rewrite Hu1, Hu2, Hu3. simpl.
    reflexivity.
Qed.

Lemma create_item_set_fields_create_user_all_fields_witness :
  create_item tea (new_session sample_db [])
  = (Ok (Some (ItemSchema_of_row tea_row)),
     new_session (mkDB [alice_row] [milk_row; tea_row]) [])
  /\ create_user carol (new_session sample_db [])
     = (Ok (Some carol),
        new_session
          (mkDB [alice_row; UserRow.mk "u3" "Carol" "r"] [milk_row]) []).
Proof.
  assert (validated_item tea) as Hi by (repeat split).
  assert (validated_user carol) as Hu by (repeat split).
  assert (int64 (create_item_pk sample_db tea)) as H64
      by (split; [discriminate|reflexivity]).
  destruct (create_item_set_fields_create_user_all_fields sample_db tea
              carol Hi H64 eq_refl Hu eq_refl) as (H1 & _ & _ & _ & H2 & _).
  split; [exact H1|exact H2].
Defined.

(** ** Setting and clearing the completion date *)

Lemma get_item_by_id_some (c : DB) (item_id : Z) (it : ItemSchema.t) :
  fst (get_item_by_id item_id (new_session c [])) = Ok (Some it) <->
  exists row,
    filter (by_item_id item_id) (todo_item c) = [row]
    /\ ItemSchema_model_validate (ItemModel_of_row row) = Ok it.
Proof.
  unfold get_item_by_id, new_session. unfold_monad. simpl.
  destruct (filter (by_item_id item_id) (todo_item c)) as [|row [|r2 rest]];
    simpl.
  - split; [discriminate|]. intros (row' & H & _). discriminate.
  - destruct (ItemSchema_model_validate (ItemModel_of_row row)) as [v|e] eqn:Ev;
      simpl.
    + split.
      * intros H. inversion H; subst. exists row. auto.
      * intros (row' & H & Hv). inversion H; subst. congruence.
    + split; [discriminate|].
      intros (row' & H & Hv). inversion H; subst. congruence.
  - split; [discriminate|]. intros (row' & H & _). discriminate.
Qed.

Lemma quiet_new_session (s : Session) :
  quiet s -> s = new_session (committed s) [].
Proof.
  destruct s as [d c p fs]. intros [[Hp Hd] Hf]. simpl in *. subst.
  reflexivity.
Qed.

Lemma validate_with_finished_date row it fd :
  ItemSchema_model_validate (ItemModel_of_row row) = Ok it ->
  ItemSchema_model_validate
    (ItemModel_of_row (ItemRow_with_finished_date row fd))
  = Ok (ItemSchema_with_finished_date it fd).
Proof.
  unfold ItemSchema_model_validate. simpl.
  destruct (_ && _); intros H; inversion H; subst. reflexivity.
Qed.

Lemma update_finished_date_quiet (c : DB) (item_id : Z)
  (fd : option datetime) (row : ItemRow.t) (it : ItemSchema.t) :
  filter (by_item_id item_id) (todo_item c) = [row] ->
  ItemSchema_model_validate (ItemModel_of_row row) = Ok it ->
  update_finished_date item_id fd (new_session c [])
  = (Ok (Some (ItemSchema_with_finished_date it fd)),
     new_session
       (replace_item item_id (ItemRow_with_finished_date row fd) c) []).
Proof.
  intros Ef Hv.
  pose proof (by_item_id_head _ _ _ _ Ef) as Hid.
  assert (has_item c item_id = true) as Hh
      by (unfold has_item; eapply filter_cons_existsb; exact Ef).
  subst item_id.
  pose proof (validate_with_finished_date row it fd Hv) as Hv'.
  unfold update_finished_date, update_finished_date_on, new_session.
  unfold_monad. simpl.
  rewrite Ef. simpl. rewrite Hh. simpl. rewrite Z.eqb_refl. simpl.
  change (ItemRow.mk (ItemRow.item_id row) (ItemRow.task_name row)
            (ItemRow.user_id row) (ItemRow.expire_date row) fd)
    with (ItemRow_with_finished_date row fd).
  unfold by_item_id in Ef.
  rewrite (filter_replace (fun r => (ItemRow.item_id r =? ItemRow.item_id row)%Z)
             (ItemRow_with_finished_date row fd))
    by (simpl; apply Z.eqb_refl).
  rewrite Ef. simpl. rewrite Hv'. reflexivity.
Qed.

Lemma replace_item_filter (c : DB) (pk : Z) (row row' : ItemRow.t) :
  ItemRow.item_id row' = pk ->
  filter (by_item_id pk) (todo_item c) = [row] ->
  filter (by_item_id pk) (todo_item (replace_item pk row' c)) = [row'].
Proof.
  intros Hid Ef. unfold replace_item, by_item_id in *. simpl.
  rewrite (filter_replace (fun r => (ItemRow.item_id r =? pk)%Z) row')
    by (rewrite Hid; apply Z.eqb_refl).
  rewrite Ef. reflexivity.
Qed.

Lemma replace_item_twice (c : DB) (pk : Z) (row' row'' : ItemRow.t) :
  ItemRow.item_id row' = pk ->
  replace_item pk row'' (replace_item pk row' c) = replace_item pk row'' c.
Proof.
  intros Hid. unfold replace_item. simpl. f_equal.
  rewrite map_map. apply map_ext. intros r.
  destruct (ItemRow.item_id r =? pk)%Z eqn:E.
  - rewrite Hid, Z.eqb_refl. reflexivity.
  - rewrite E. reflexivity.
Qed.

Lemma update_finished_date_again (c : DB) (item_id : Z)
  (fd fd' : option datetime) (row : ItemRow.t) (it : ItemSchema.t) :
  filter (by_item_id item_id) (todo_item c) = [row] ->
  ItemSchema_model_validate (ItemModel_of_row row) = Ok it ->
  update_finished_date item_id fd'
    (new_session (replace_item item_id (ItemRow_with_finished_date row fd) c) [])
  = (Ok (Some (ItemSchema_with_finished_date it fd')),
     new_session
       (replace_item item_id (ItemRow_with_finished_date row fd') c) []).
Proof.
  intros Ef Hv.
  pose proof (by_item_id_head _ _ _ _ Ef) as Hid.
  rewrite (update_finished_date_quiet _ item_id fd'
             (ItemRow_with_finished_date row fd)
             (ItemSchema_with_finished_date it fd)).
  - rewrite replace_item_twice by exact Hid. reflexivity.
  - apply (replace_item_filter c item_id row); [exact Hid|exact Ef].
  - apply validate_with_finished_date. exact Hv.
Qed.

Lemma get_item_by_id_after (c : DB) (item_id : Z) (fd : option datetime)
  (row : ItemRow.t) (it : ItemSchema.t) :
  filter (by_item_id item_id) (todo_item c) = [row] ->
  ItemSchema_model_validate (ItemModel_of_row row) = Ok it ->
  fst (get_item_by_id item_id
         (new_session
            (replace_item item_id (ItemRow_with_finished_date row fd) c) []))
  = Ok (Some (ItemSchema_with_finished_date it fd)).
Proof.
  intros Ef Hv. apply get_item_by_id_some.
  exists (ItemRow_with_finished_date row fd). split.
  - apply (replace_item_filter c item_id row); [|exact Ef].
    exact (by_item_id_head _ _ _ _ Ef).
  - apply validate_with_finished_date. exact Hv.
Qed.

(** For a naive datetime [t]: on a session without store faults, let
    [get_item_by_id item_id] find the item [it].  After
    [update_finished_date item_id (Some t)] the look-up finds [it] with
    [finished_date] equal to [t] and every other field as before; after a
    following [update_finished_date item_id None] it finds [it] with no
    [finished_date].  Repeating either call gives the same answer and leaves
    the session as it is. *)
Lemma finished_date_set_then_clear
  (s : Session) (item_id : Z) (t : datetime) (it : ItemSchema.t) :
  clean s ->
  faults s = [] ->
  fst (get_item_by_id item_id s) = Ok (Some it) ->
  let s1 := snd (update_finished_date item_id (Some t) s) in
  let s2 := snd (update_finished_date item_id None s1) in
  fst (update_finished_date item_id (Some t) s)
  = Ok (Some (ItemSchema_with_finished_date it (Some t)))
  /\ fst (get_item_by_id item_id s1)
     = Ok (Some (ItemSchema_with_finished_date it (Some t)))
  /\ fst (get_item_by_id item_id s2)
     = Ok (Some (ItemSchema_with_finished_date it None))
  /\ update_finished_date item_id (Some t) s1
     = (Ok (Some (ItemSchema_with_finished_date it (Some t))), s1)
  /\ update_finished_date item_id None s2
     = (Ok (Some (ItemSchema_with_finished_date it None)), s2).
Proof.
  intros Hc Hf Hget.
  rewrite (quiet_new_session s (conj Hc Hf)) in *.
  apply get_item_by_id_some in Hget. destruct Hget as (row & Ef & Hv).
  intros s1 s2. subst s1 s2.
  rewrite (update_finished_date_quiet _ _ (Some t) row it Ef Hv). simpl.
  rewrite (update_finished_date_again _ _ (Some t) None row it Ef Hv). simpl.
  repeat split.
  - apply get_item_by_id_after; assumption.
  - apply get_item_by_id_after; assumption.
  - apply update_finished_date_again; assumption.
  - apply update_finished_date_again; assumption.
Qed.

(** C6, counterexample.  The completion date of item 1 is set to a
    timezone-aware datetime (wall clock 5000, UTC+9).  The look-up that
    follows finds the item with the naive datetime of the same wall clock,
    which is not the datetime that was passed. *)
Lemma aware_finished_date_not_read_back :
  fst (get_item_by_id 1 (new_session sample_db [])) = Ok (Some milk)
  /\ fst (get_item_by_id 1
            (snd (update_finished_date_aware 1 (Some noon_in_tokyo)
                    (new_session sample_db []))))
     = Ok (Some (ItemSchema_with_finished_date milk (Some 5000)))
  /\ finished_date_read (ItemSchema_with_finished_date milk (Some 5000))
     = Some (mkDatetime 5000 None)
  /\ Some (mkDatetime 5000 None) <> Some noon_in_tokyo.
Proof.
  repeat split. discriminate.
Qed.

(** C6, amended.  On a session without store faults, let
    [get_item_by_id item_id] find the item [it].  After
    [update_finished_date item_id t] the look-up finds [it] with every other
    field as before and with the [finished_date] that has the wall-clock
    reading of [t] and no [tzinfo]; that is [t] exactly when [t] is naive.
    After a following [update_finished_date item_id None] the look-up finds
    [it] with no [finished_date].  Repeating either call gives the same
    answer and leaves the session as it is. *)
Theorem finished_date_stored_without_tzinfo
  (s : Session) (item_id : Z) (t : pydatetime) (it : ItemSchema.t) :
  clean s ->
  faults s = [] ->
  fst (get_item_by_id item_id s) = Ok (Some it) ->
  let s1 := snd (update_finished_date_aware item_id (Some t) s) in
  let s2 := snd (update_finished_date_aware item_id None s1) in
  let set := ItemSchema_with_finished_date it (Some (wall t)) in
  let cleared := ItemSchema_with_finished_date it None in
  fst (update_finished_date_aware item_id (Some t) s) = Ok (Some set)
  /\ fst (get_item_by_id item_id s1) = Ok (Some set)
  /\ finished_date_read set = Some (mkDatetime (wall t) None)
  /\ (finished_date_read set = Some t <-> tzinfo t = None)
  /\ fst (get_item_by_id item_id s2) = Ok (Some cleared)
  /\ finished_date_read cleared = None
  /\ update_finished_date_aware item_id (Some t) s1 = (Ok (Some set), s1)
  /\ update_finished_date_aware item_id None s2 = (Ok (Some cleared), s2).
Proof.
  intros Hc Hf Hget s1 s2 set cleared.
  unfold update_finished_date_aware in *. simpl option_map in *.
  destruct (finished_date_set_then_clear s item_id (wall t) it Hc Hf Hget)
    as (H1 & H2 & H3 & H4 & H5).
  repeat split; try assumption.
  - intros H. unfold finished_date_read, set in H. simpl in H.
    inversion H as [Ht]. rewrite <- Ht. reflexivity.
  - intros Hn. unfold finished_date_read, set. simpl.
    destruct t as [w tz]. simpl in *. subst tz. reflexivity.
Qed.

Lemma finished_date_stored_without_tzinfo_witness :
  clean (new_session sample_db [])
  /\ fst (get_item_by_id 1
            (snd (update_finished_date_aware 1 (Some noon_in_tokyo)
                    (new_session sample_db []))))
     = Ok (Some (ItemSchema_with_finished_date milk (Some 5000))).
Proof.
  split; [split; reflexivity|].
  destruct (finished_date_stored_without_tzinfo (new_session sample_db []) 1
              noon_in_tokyo milk (conj eq_refl eq_refl) eq_refl eq_refl)
    as (_ & H & _).
  exact H.
Defined.

(** * Further properties of the repositories and handlers *)

(** ** Which exceptions leave the repositories *)

Lemma try_except_answers {A} (m : M A) (h : exn -> M A) :
  (forall e, answers (h e)) -> answers (try_except m h).
Proof.
  intros Hh s. unfold try_except.
  destruct (m s) as [[a|e] s']; simpl; [eauto|apply Hh].
Qed.

Lemma ret_answers {A} (x : A) : answers (ret x).
Proof. intros s. eexists. reflexivity. Qed.

Lemma failure_branch_answers {A} (m : M A) (rb : M unit) (x : A) :
  answers rb -> answers (try_except m (fun _ => bind rb (fun _ => ret x))).
Proof.
  intros Hrb. apply try_except_answers. intros e s.
  unfold bind, ret. destruct (Hrb s) as [r Hr].
  destruct (rb s) as [[u|e1] s1]; simpl in *; [eauto|discriminate].
Qed.

(** X1. The six reading operations of the two repositories never raise:
    each answers with a value on every session, whatever is pending and
    whatever faults are scheduled.  Each of the seven writing operations
    answers with a value on every session when [session.rollback] does, and
    an exception leaves a writing operation only when the rollback of its
    failure branch raised it; with a store that fails and a rollback that
    fails too, [create_item] and [update_user] raise. *)
Theorem repositories_raise_only_through_rollback (session_rollback : M unit) :
  (answers get_item
   /\ (forall u, answers (get_item_by_user_id u))
   /\ (forall i, answers (get_item_by_id i))
   /\ (forall u p, answers (get_user_by_id_and_password u p))
   /\ (forall u, answers (get_user_by_id u))
   /\ answers get_users)
  /\ (answers session_rollback ->
      (forall i, answers (delete_item_on session_rollback i))
      /\ (forall it, answers (create_item_on session_rollback it))
      /\ (forall i it, answers (update_item_on session_rollback i it))
      /\ (forall i fd, answers (update_finished_date_on session_rollback i fd))
      /\ (forall u, answers (create_user_on session_rollback u))
      /\ (forall u d, answers (update_user_on session_rollback u d))
      /\ (forall u, answers (delete_user_on session_rollback u)))
  /\ (forall s e,
         (exists i, fst (delete_item_on session_rollback i s) = Raise e)
         \/ (exists it, fst (create_item_on session_rollback it s) = Raise e)
         \/ (exists i it, fst (update_item_on session_rollback i it s) = Raise e)
         \/ (exists i fd,
                fst (update_finished_date_on session_rollback i fd s) = Raise e)
         \/ (exists u, fst (create_user_on session_rollback u s) = Raise e)
         \/ (exists u d, fst (update_user_on session_rollback u d s) = Raise e)
         \/ (exists u, fst (delete_user_on session_rollback u s) = Raise e) ->
         exists s0, fst (session_rollback s0) = Raise e)
  /\ fst (create_item_on (raise OperationalError) tea
            (new_session sample_db [true])) = Raise OperationalError
  /\ fst (update_user_on (raise OperationalError) "u1" bob
            (new_session sample_db [false; true])) = Raise OperationalError.
Proof.
  split; [|split; [|split; [|split; reflexivity]]].
  - repeat split; intros; apply try_except_answers; intros; apply ret_answers.
  - intros Hrb. repeat split; intros; apply failure_branch_answers; exact Hrb.
  - intros s e H.
    repeat match goal with
           | H : _ \/ _ |- _ => destruct H as [H|H]
           | H : exists _, _ |- _ => destruct H as [? H]
           end;
      eapply failure_branch_raises; exact H.
Qed.

Lemma repositories_raise_only_through_rollback_witness :
  answers rollback
  /\ exists r, fst (delete_item 1 (new_session sample_db [true])) = Ok r.
Proof.
  assert (answers rollback) as Hrb by (intros s; eexists; reflexivity).
  split; [exact Hrb|].
  destruct (repositories_raise_only_through_rollback rollback)
    as (_ & H & _).
  destruct (H Hrb) as (Hd & _).
  exact (Hd 1 (new_session sample_db [true])).
Defined.

(** X2. The handler that creates an item raises nothing but its 400
    "Failed to create item", and raises it only when the rollback inside
    [create_item] raised: with a store that fails and a rollback that fails
    too it answers the 400, and with a rollback that succeeds it never
    raises, a failed creation being answered with no item.  The two list
    handlers never raise. *)
Theorem create_handler_400_only_through_rollback
  (session_rollback : M unit) (item : ItemSchema.t)
  (current_user : UserSchema.t) :
  (forall s e,
      fst (create_item_endpoint_on session_rollback item current_user s)
      = Raise e ->
      e = HTTPException 400 "Failed to create item"
      /\ exists s0 e0, fst (session_rollback s0) = Raise e0)
  /\ (answers session_rollback ->
      answers (create_item_endpoint_on session_rollback item current_user))
  /\ fst (create_item_endpoint_on (raise OperationalError) item current_user
            (new_session sample_db [true]))
     = Raise (HTTPException 400 "Failed to create item")
  /\ fst (create_item_endpoint item current_user
            (new_session sample_db [true])) = Ok None
  /\ answers (read_items_endpoint current_user)
  /\ answers (read_users_endpoint current_user).
Proof.
  split; [|split; [|split; [|split; [|split]]]].
  - intros s e H.
    unfold create_item_endpoint_on, try_except, bind, ret, raise_bad_request,
      raise in H.
    destruct (create_item_on session_rollback
                (ItemSchema_set_user_id item (UserSchema.user_id current_user))
                s) as [[a|e0] s0] eqn:Ec; simpl in H; [discriminate|].
    split; [congruence|].
    assert (fst (create_item_on session_rollback
                   (ItemSchema_set_user_id item
                      (UserSchema.user_id current_user)) s) = Raise e0) as Hr
        by (rewrite Ec; reflexivity).
    unfold create_item_on in Hr.
    apply failure_branch_raises in Hr. destruct Hr as [s1 Hr]. eauto.
  - intros Hrb s.
    unfold create_item_endpoint_on, try_except, bind, ret.
    assert (answers (create_item_on session_rollback
                       (ItemSchema_set_user_id item
                          (UserSchema.user_id current_user)))) as Ha
        by (apply failure_branch_answers; exact Hrb).
    destruct (Ha s) as [r Hr].
    destruct (create_item_on _ _ s) as [[a|e] s']; simpl in *;
      [eauto|discriminate].
  - destruct item as [i tn uid ed fd fs].
    unfold create_item_endpoint_on, create_item_on. unfold_monad. simpl.
    match goal with
    | |- context [ItemModel_init ?d] => destruct (ItemModel_init d)
    end; reflexivity.
  - destruct item as [i tn uid ed fd fs].
    unfold create_item_endpoint, create_item_endpoint_on, create_item_on.
    unfold_monad. simpl.
    match goal with
    | |- context [ItemModel_init ?d] => destruct (ItemModel_init d)
    end; reflexivity.
  - apply try_except_answers; intros; apply ret_answers.
  - intros s. unfold read_users_endpoint, bind, ret.
    assert (answers get_users) as Ha
        by (apply try_except_answers; intros; apply ret_answers).
    destruct (Ha s) as [r Hr].
    destruct (get_users s) as [[a|e] s']; simpl in *; [eauto|discriminate].
Qed.

Lemma create_handler_400_only_through_rollback_witness :
  answers rollback
  /\ exists r,
      fst (create_item_endpoint tea alice (new_session sample_db [true]))
      = Ok r.
Proof.
  assert (answers rollback) as Hrb by (intros s; eexists; reflexivity).
  split; [exact Hrb|].
  destruct (create_handler_400_only_through_rollback rollback tea alice)
    as (_ & H & _).
  exact (H Hrb (new_session sample_db [true])).
Defined.

(** ** What the list operations return *)

Lemma UserSchema_model_validate_of_row r v :
  UserSchema_model_validate (UserModel_of_row r) = Ok v ->
  v = UserSchema_of_row r.
Proof.
  unfold UserSchema_model_validate. simpl.
  destruct (_ && _); intros H; inversion H; subst; reflexivity.
Qed.

Lemma validate_all_items rows l :
  validate_all ItemSchema_model_validate (map ItemModel_of_row rows) = Ok l ->
  l = map ItemSchema_of_row rows.
Proof.
  revert l. induction rows as [|r rows IH]; simpl; intros l H.
  - inversion H. reflexivity.
  - destruct (ItemSchema_model_validate (ItemModel_of_row r)) as [v|] eqn:Ev;
      [|discriminate].
    destruct (validate_all _ _) as [vs|]; [|discriminate].
    inversion H; subst. apply ItemSchema_model_validate_row in Ev. subst v.
    rewrite (IH vs eq_refl). reflexivity.
Qed.

Lemma validate_all_users rows l :
  validate_all UserSchema_model_validate (map UserModel_of_row rows) = Ok l ->
  l = map UserSchema_of_row rows.
Proof.
  revert l. induction rows as [|r rows IH]; simpl; intros l H.
  - inversion H. reflexivity.
  - destruct (UserSchema_model_validate (UserModel_of_row r)) as [v|] eqn:Ev;
      [|discriminate].
    destruct (validate_all _ _) as [vs|]; [|discriminate].
    inversion H; subst. apply UserSchema_model_validate_of_row in Ev. subst v.
    rewrite (IH vs eq_refl). reflexivity.
Qed.

Lemma filter_all {A} (l : list A) : filter (fun _ => true) l = l.
Proof. induction l as [|x l IH]; simpl; [reflexivity|]. rewrite IH. reflexivity. Qed.

Lemma validate_all_fails {A B} (f : A -> res B) (l : list A) (x : A)
  (e : exn) :
  In x l -> f x = Raise e -> exists e', validate_all f l = Raise e'.
Proof.
  induction l as [|a l IH]; simpl; intros Hin Hx; [destruct Hin|].
  destruct Hin as [Ha|Hin].
  - subst a. rewrite Hx. eauto.
  - destruct (f a); [|eauto].
    destruct (IH Hin Hx) as [e' He']. rewrite He'. eauto.
Qed.

Lemma validate_all_succeeds {A B} (f : A -> res B) (l : list A) :
  (forall x, In x l -> exists v, f x = Ok v) ->
  exists vs, validate_all f l = Ok vs.
Proof.
  induction l as [|a l IH]; simpl; intros H; [eauto|].
  destruct (H a (or_introl eq_refl)) as [v Hv]. rewrite Hv.
  destruct (IH (fun x Hx => H x (or_intror Hx))) as [vs Hvs]. rewrite Hvs.
  eauto.
Qed.

(** X3. On a clean session the list-all of the item repository answers
    either with nothing or with one entry per stored item (the order of the
    entries is the store's and is left open), and the list-all of the user
    repository with absent or with one entry per stored user.  When no store
    round trip fails and every stored row passes validation the answer has
    all the entries; a single stored row that fails validation empties the
    whole answer. *)
Theorem list_all_is_all_or_nothing (s : Session) :
  clean s ->
  (forall l, fst (get_item s) = Ok l ->
             l = []
             \/ Permutation l
                  (map ItemSchema_of_row (todo_item (committed s))))
  /\ (forall r, fst (get_users s) = Ok r ->
                r = None
                \/ exists l,
                    r = Some l
                    /\ Permutation l
                         (map UserSchema_of_row (todo_user (committed s))))
  /\ (faults s = [] ->
      (forall row, In row (todo_item (committed s)) ->
                   exists v,
                     ItemSchema_model_validate (ItemModel_of_row row) = Ok v) ->
      exists l, fst (get_item s) = Ok l
                /\ Permutation l
                     (map ItemSchema_of_row (todo_item (committed s))))
  /\ (faults s = [] ->
      (forall row, In row (todo_user (committed s)) ->
                   exists v,
                     UserSchema_model_validate (UserModel_of_row row) = Ok v) ->
      exists l, fst (get_users s) = Ok (Some l)
                /\ Permutation l
                     (map UserSchema_of_row (todo_user (committed s))))
  /\ (forall row e,
         In row (todo_item (committed s)) ->
         ItemSchema_model_validate (ItemModel_of_row row) = Raise e ->
         fst (get_item s) = Ok [])
  /\ (forall row e,
         In row (todo_user (committed s)) ->
         UserSchema_model_validate (UserModel_of_row row) = Raise e ->
         fst (get_users s) = Ok None).
Proof.
  destruct s as [d c p fs]. intros [Hp Hd]. simpl in *. subst.
  split; [|split; [|split; [|split; [|split]]]].
  - intros l. unfold get_item. unfold_monad. simpl.
    destruct fs as [|[] fs]; simpl.
    all: try (intros H; inversion H; auto; fail).
    all: rewrite filter_all.
    all: destruct (validate_all _ _) as [vs|e] eqn:Ev; simpl;
      intros H; inversion H; subst; auto.
    all: right; apply validate_all_items in Ev; subst; apply Permutation_refl.
  - intros r. unfold get_users. unfold_monad. simpl.
    destruct fs as [|[] fs]; simpl.
    all: try (intros H; inversion H; auto; fail).
    all: rewrite filter_all.
    all: destruct (validate_all _ _) as [vs|e] eqn:Ev; simpl;
      intros H; inversion H; subst; auto.
    all: right; exists vs; split; [reflexivity|].
    all: apply validate_all_users in Ev; subst; apply Permutation_refl.
  - intros Hf Hall. subst fs. unfold get_item. unfold_monad. simpl.
    rewrite filter_all.
    destruct (validate_all_succeeds ItemSchema_model_validate
                (map ItemModel_of_row (todo_item c))) as [vs Hvs].
    { intros x Hx. apply in_map_iff in Hx. destruct Hx as (row & Hrow & Hin).
      subst x. apply Hall. exact Hin. }
    rewrite Hvs. simpl. exists vs. split; [reflexivity|].
    apply validate_all_items in Hvs. subst vs. apply Permutation_refl.
  - intros Hf Hall. subst fs. unfold get_users. unfold_monad. simpl.
    rewrite filter_all.
    destruct (validate_all_succeeds UserSchema_model_validate
                (map UserModel_of_row (todo_user c))) as [vs Hvs].
    { intros x Hx. apply in_map_iff in Hx. destruct Hx as (row & Hrow & Hin).
      subst x. apply Hall. exact Hin. }
    rewrite Hvs. simpl. exists vs. split; [reflexivity|].
    apply validate_all_users in Hvs. subst vs. apply Permutation_refl.
  - intros row e Hin Hv. unfold get_item. unfold_monad. simpl.
    destruct fs as [|[] fs]; simpl; try reflexivity.
    all: rewrite filter_all.
    all: destruct (validate_all_fails ItemSchema_model_validate
                     (map ItemModel_of_row (todo_item c))
                     (ItemModel_of_row row) e (in_map _ _ _ Hin) Hv)
      as [e' He'].
    all: rewrite He'; reflexivity.
  - intros row e Hin Hv. unfold get_users. unfold_monad. simpl.
    destruct fs as [|[] fs]; simpl; try reflexivity.
    all: rewrite filter_all.
    all: destruct (validate_all_fails UserSchema_model_validate
                     (map UserModel_of_row (todo_user c))
                     (UserModel_of_row row) e (in_map _ _ _ Hin) Hv)
      as [e' He'].
    all: rewrite He'; reflexivity.
Qed.

(** X4. Every item [get_item_by_user_id user_id] returns carries that
    [user_id], on every session. *)
Theorem get_item_by_user_id_only_owner (s : Session) (user_id : string)
  (l : list ItemSchema.t) :
  fst (get_item_by_user_id user_id s) = Ok l ->
  Forall (fun it => ItemSchema.user_id it = user_id) l.
Proof.
  destruct s as [d c p fs]. unfold get_item_by_user_id. unfold_monad. simpl.
  intros H.
  assert (forall d' vs,
             validate_all ItemSchema_model_validate
               (map ItemModel_of_row (filter (owned_by user_id) (todo_item d')))
             = Ok vs ->
             Forall (fun it => ItemSchema.user_id it = user_id) vs) as Hall.
  { intros d' vs Ev. apply validate_all_items in Ev. subst vs.
    apply Forall_forall. intros it Hin. apply in_map_iff in Hin.
    destruct Hin as (r & Hr & Hin). subst it. simpl.
    apply filter_In in Hin. destruct Hin as [_ Ho].
    apply String.eqb_eq in Ho. exact Ho. }
  destruct fs as [|[] fs]; simpl in H.
  all: try (inversion H; constructor; fail).
  all: destruct (flush_ops d None p) as [[d' k]|e]; simpl in H;
    try (inversion H; constructor; fail).
  all: destruct (validate_all _ _) as [vs|e] eqn:Ev; simpl in H;
    inversion H; subst; try constructor.
  all: eapply Hall; exact Ev.
Qed.

Lemma list_all_is_all_or_nothing_witness :
  clean (new_session sample_db [])
  /\ fst (get_item (new_session sample_db [])) = Ok [milk]
  /\ Permutation [milk] (map ItemSchema_of_row (todo_item sample_db))
  /\ fst (get_users (new_session (mkDB [alice_row; long_name_row] []) []))
     = Ok None.
Proof.
  split; [split; reflexivity|]. split; [reflexivity|].
  destruct (list_all_is_all_or_nothing (new_session sample_db [])
              (conj eq_refl eq_refl)) as (H & _).
  destruct (list_all_is_all_or_nothing
              (new_session (mkDB [alice_row; long_name_row] []) [])
              (conj eq_refl eq_refl)) as (_ & _ & _ & _ & _ & Hu).
  split.
  - destruct (H [milk] eq_refl) as [Hnil|Hperm]; [discriminate Hnil|].
    exact Hperm.
  - apply (Hu long_name_row ValidationError).
    + right. left. reflexivity.
    + reflexivity.
Defined.

Lemma get_item_by_user_id_only_owner_witness :
  fst (get_item_by_user_id "u1" (new_session sample_db [])) = Ok [milk]
  /\ Forall (fun it => ItemSchema.user_id it = "u1") [milk].
Proof.
  split; [reflexivity|].
  exact (get_item_by_user_id_only_owner (new_session sample_db []) "u1" [milk]
           eq_refl).
Defined.

(** ** Login *)

Lemma issued_token_resolves (s s1 : Session) (user_id : string)
  (usr : UserSchema.t) (issued now : datetime) :
  get_user_by_id user_id s = (Ok (Some usr), s1) ->
  now < issued + timedelta_hours 24 ->
  get_current_user (create_access_token user_id issued) now s = (Ok usr, s1).
Proof.
  intros Hu Hlt. unfold timedelta_hours in Hlt.
  unfold get_current_user, create_access_token, jwt_encode, jwt_decode,
    timedelta_hours, try_except, bind, lift.
  rewrite tag_eqb_refl. simpl.
  destruct (Z.leb _ now) eqn:E; [apply Z.leb_le in E; lia|].
  simpl. rewrite Hu. reflexivity.
Qed.

(** X5. On a clean session the login handler either fails with the 400
    of a failed authentication, or a stored user has exactly the given
    [user_id] and the given password and the answer carries the token issued
    for that [user_id], the type "bearer" and the fields of that user. *)
Theorem login_answers (s : Session) (user_id password : string)
  (utcnow : datetime) :
  clean s ->
  fst (read_user_by_id_and_password_endpoint user_id password utcnow s)
  = Raise (HTTPException 400 "認証失敗")
  \/ exists row,
      In row (todo_user (committed s))
      /\ UserRow.user_id row = user_id
      /\ UserRow.password row = password
      /\ fst (read_user_by_id_and_password_endpoint user_id password utcnow s)
         = Ok (mkLoginResponse (create_access_token user_id utcnow) "bearer"
                 (UserSchema_model_dump false (UserSchema_of_row row))).
Proof.
  destruct s as [d c p fs]. intros [Hp Hd]. simpl in *. subst.
  unfold read_user_by_id_and_password_endpoint, get_user_by_id_and_password.
  unfold_monad. simpl.
  destruct fs as [|[] fs]; simpl; auto.
  all: match goal with
       | |- context [filter ?f ?l] =>
           destruct (filter f l) as [|row [|r2 rest]] eqn:Ef
       end; simpl; auto.
  all: destruct (UserSchema_model_validate (UserModel_of_row row)) as [v|e]
         eqn:Ev; simpl; auto.
  all: apply UserSchema_model_validate_of_row in Ev; subst v.
  all: assert (In row (filter (fun r => by_user_id user_id r
                                        && String.eqb (UserRow.password r) password)
                              (todo_user c))) as Hin
      by (rewrite Ef; left; reflexivity).
  all: apply filter_In in Hin; destruct Hin as [Hin Hm].
  all: apply andb_true_iff in Hm; destruct Hm as [Hu Hpw].
  all: apply String.eqb_eq in Hu; apply String.eqb_eq in Hpw.
  all: right; exists row; subst; repeat split; auto.
Qed.

Lemma filter_by_key_unique {A} (f : A -> string) (l : list A) (x : A) :
  NoDup (map f l) -> In x l ->
  filter (fun r => String.eqb (f r) (f x)) l = [x].
Proof.
  induction l as [|a l IH]; simpl; intros Hnd Hin; [destruct Hin|].
  inversion Hnd as [|? ? Hnotin Hnd']; subst.
  destruct Hin as [Hx|Hx].
  - subst a. rewrite String.eqb_refl. f_equal.
    apply existsb_false_filter.
    destruct (existsb _ l) eqn:E; [|reflexivity].
    apply existsb_exists in E. destruct E as (r & Hr & He).
    apply String.eqb_eq in He. exfalso. apply Hnotin.
    rewrite <- He. apply in_map. exact Hr.
  - destruct (String.eqb (f a) (f x)) eqn:E.
    + apply String.eqb_eq in E. exfalso. apply Hnotin.
      rewrite E. apply in_map. exact Hx.
    + apply IH; assumption.
Qed.

(** On the clock of whole seconds, on a clean session without store faults
    whose users have distinct [user_id]s: the token a successful login
    returns is resolved by [get_current_user], in every second before 24
    hours have passed, to a user with the [user_id] and the password of the
    login, whose fields are those the login answered with. *)
Lemma login_token_resolves (s s' : Session) (user_id password : string)
  (utcnow now : datetime) (resp : LoginResponse) :
  clean s ->
  faults s = [] ->
  NoDup (map UserRow.user_id (todo_user (committed s))) ->
  read_user_by_id_and_password_endpoint user_id password utcnow s
  = (Ok resp, s') ->
  now < utcnow + timedelta_hours 24 ->
  exists usr,
    fst (get_current_user (access_token resp) now s') = Ok usr
    /\ UserSchema.user_id usr = user_id
    /\ UserSchema.password usr = password
    /\ user resp = UserSchema_model_dump false usr.
Proof.
  intros Hc Hf Hnd H Hlt.
  rewrite (quiet_new_session s (conj Hc Hf)) in H.
  set (c := committed s) in *. clearbody c.
  unfold read_user_by_id_and_password_endpoint, get_user_by_id_and_password,
    new_session in H.
  unfold_monad. simpl in H.
  match type of H with
  | context [filter ?f ?l] =>
      destruct (filter f l) as [|row [|r2 rest]] eqn:Ef
  end; simpl in H; try discriminate.
  destruct (UserSchema_model_validate (UserModel_of_row row)) as [v|e] eqn:Ev;
    simpl in H; try discriminate.
  inversion H; subst; clear H. simpl.
  assert (In row (filter (fun r => by_user_id user_id r
                                   && String.eqb (UserRow.password r) password)
                         (todo_user c))) as Hin
      by (rewrite Ef; left; reflexivity).
  apply filter_In in Hin. destruct Hin as [Hin Hm].
  apply andb_true_iff in Hm. destruct Hm as [Hu Hpw].
  apply String.eqb_eq in Hu. apply String.eqb_eq in Hpw.
  pose proof (UserSchema_model_validate_of_row _ _ Ev) as Hv.
  exists v. subst v. simpl. repeat split; auto.
  erewrite issued_token_resolves; [reflexivity| |exact Hlt].
  unfold get_user_by_id. unfold_monad. simpl.
  pose proof (filter_by_key_unique UserRow.user_id (todo_user c) row Hnd Hin)
    as Hfu.
  unfold by_user_id. rewrite Hfu. simpl. rewrite Ev. reflexivity.
Qed.

Lemma login_answers_witness :
  clean (new_session sample_db [])
  /\ fst (read_user_by_id_and_password_endpoint "u1" "wrong" 0
            (new_session sample_db []))
     = Raise (HTTPException 400 "認証失敗")
  /\ fst (read_user_by_id_and_password_endpoint "u1" "p" 0
            (new_session sample_db []))
     = Ok (mkLoginResponse (create_access_token "u1" 0) "bearer"
             (UserSchema_model_dump false alice)).
Proof.
  split; [split; reflexivity|].
  destruct (login_answers (new_session sample_db []) "u1" "wrong" 0
              (conj eq_refl eq_refl)) as [H|(row & _ & _ & _ & H)];
    [|discriminate H].
  split; [exact H|reflexivity].
Defined.

Lemma login_at_seconds (user_id password : string) (utcnow : instant)
  (s : Session) :
  read_user_by_id_and_password_endpoint_at user_id password utcnow s
  = read_user_by_id_and_password_endpoint user_id password
      (seconds_of utcnow) s.
Proof.
  unfold read_user_by_id_and_password_endpoint_at,
    read_user_by_id_and_password_endpoint, bind.
  destruct (get_user_by_id_and_password user_id password s) as [[[u|]|e] s1];
    try reflexivity.
  rewrite create_access_token_at_seconds. reflexivity.
Qed.

(** X6. On a store that answers and whose [user_id]s are unique, the token
    of a successful login, presented before it expires (24 hours after the
    whole second of the login), resolves to a user with the [user_id] and
    the password of the login, and the user data of the login response is
    the dump of that user. *)
Theorem login_token_resolves_on_the_clock (s s' : Session)
  (user_id password : string) (utcnow now : instant) (resp : LoginResponse) :
  clean s ->
  faults s = [] ->
  NoDup (map UserRow.user_id (todo_user (committed s))) ->
  read_user_by_id_and_password_endpoint_at user_id password utcnow s
  = (Ok resp, s') ->
  now < expiry_of utcnow ->
  exists usr,
    fst (get_current_user_at (access_token resp) now s') = Ok usr
    /\ UserSchema.user_id usr = user_id
    /\ UserSchema.password usr = password
    /\ user resp = UserSchema_model_dump false usr.
Proof.
  intros Hc Hf Hnd H Hlt. rewrite login_at_seconds in H.
  unfold get_current_user_at.
  apply (login_token_resolves s s' user_id password (seconds_of utcnow)
           (seconds_of now) resp Hc Hf Hnd H).
  apply seconds_of_lt. exact Hlt.
Qed.

Lemma login_token_resolves_on_the_clock_witness :
  exists resp s' usr,
    read_user_by_id_and_password_endpoint_at "u1" "p" 500000
      (new_session sample_db []) = (Ok resp, s')
    /\ fst (get_current_user_at (access_token resp) 86399999999 s') = Ok usr
    /\ UserSchema.user_id usr = "u1".
Proof.
  assert (NoDup (map UserRow.user_id (todo_user sample_db))) as Hnd
      by (repeat constructor; intros []).
  destruct (login_token_resolves_on_the_clock (new_session sample_db [])
              (new_session sample_db []) "u1" "p" 500000 86399999999
              (mkLoginResponse (create_access_token_at "u1" 500000) "bearer"
                 (UserSchema_model_dump false alice))
              (conj eq_refl eq_refl) eq_refl Hnd eq_refl eq_refl)
    as (usr & H & Hid & _).
  eexists. eexists. exists usr. split; [reflexivity|]. split; assumption.
Defined.

(** ** Creating items *)

Lemma filter_snoc_fresh (l : list ItemRow.t) (row : ItemRow.t) :
  existsb (fun r => ItemRow.item_id r =? ItemRow.item_id row) l = false ->
  filter (fun r => ItemRow.item_id r =? ItemRow.item_id row) (l ++ [row])
  = [row].
Proof.
  intros H. rewrite filter_app, (existsb_false_filter _ _ H). simpl.
  rewrite Z.eqb_refl. reflexivity.
Qed.

(** What a create that answers with an item has done. *)
Lemma create_item_some (c : DB) (fs : list bool) (it created : ItemSchema.t)
  (s' : Session) :
  create_item it (new_session c fs) = (Ok (Some created), s') ->
  exists row,
    created = ItemSchema_of_row row
    /\ has_item c (ItemRow.item_id row) = false
    /\ ItemSchema_model_validate (ItemModel_of_row row) = Ok created
    /\ db s' = mkDB (todo_user c) (todo_item c ++ [row])
    /\ committed s' = db s'
    /\ pending s' = []
    /\ faults s' = skipn 2 fs.
Proof.
  intros H. unfold create_item, create_item_on, new_session in H.
  rewrite ItemModel_init_dump in H.
  remember (if_set _ "item_id" _) as oid.
  remember (if_set _ "task_name" _) as otn.
  remember (if_set _ "user_id" _) as ouid.
  remember (if_set _ "expire_date" _) as oed.
  remember (if_set _ "finished_date" _) as ofd.
  clear Heqoid Heqotn Heqouid Heqoed Heqofd.
  unfold_monad. simpl in H.
  destruct fs as [|[] [|[] fs]]; simpl in H; try discriminate.
  all: match type of H with
       | context [has_item ?d0 ?pk] =>
           remember pk as rowid eqn:Epk; clear Epk;
           destruct (has_item d0 rowid) eqn:Eh
       end; simpl in H; try discriminate.
  all: destruct otn as [tn|], ouid as [uid|], oed as [ed|]; simpl in H;
    try discriminate.
  all: pose proof Eh as Eh'; unfold has_item in Eh';
    apply existsb_false_filter in Eh'.
  all: rewrite filter_app, Eh' in H; simpl in H; rewrite Z.eqb_refl in H;
    simpl in H.
  all: match type of H with
       | context [ItemSchema_model_validate ?o] =>
           destruct (ItemSchema_model_validate o) as [v|] eqn:Ev
       end; simpl in H; try discriminate.
  all: inversion H; subst; clear H; simpl.
  all: exists (ItemRow.mk rowid tn uid ed ofd).
  all: pose proof (ItemSchema_model_validate_row _ _ Ev) as Hc; simpl in Hc.
  all: repeat split; auto.
Qed.

(** X7. On a clean session without store faults, a [create_item] that
    answers with an item has appended exactly one row, under a primary key no
    stored item had, and [get_item_by_id] on that key then returns the very
    item the create answered with. *)
Theorem create_item_then_get (s s' : Session) (it created : ItemSchema.t) :
  clean s ->
  faults s = [] ->
  create_item it s = (Ok (Some created), s') ->
  exists row,
    created = ItemSchema_of_row row
    /\ has_item (committed s) (ItemRow.item_id row) = false
    /\ committed s'
       = mkDB (todo_user (committed s)) (todo_item (committed s) ++ [row])
    /\ fst (get_item_by_id (ItemRow.item_id row) s') = Ok (Some created).
Proof.
  intros Hc Hf H.
  rewrite (quiet_new_session s (conj Hc Hf)) in H.
  apply create_item_some in H.
  destruct H as (row & Hcr & Hfresh & Hv & Hdb & Hcm & Hp & Hfs).
  exists row. repeat split; auto.
  - congruence.
  - destruct s' as [d' c' p' fs']. simpl in *. subst.
    apply get_item_by_id_some. exists row. split; [|exact Hv].
    simpl. apply filter_snoc_fresh. exact Hfresh.
Qed.

Lemma create_item_then_get_witness :
  clean (new_session sample_db [])
  /\ create_item tea (new_session sample_db [])
     = (Ok (Some (ItemSchema_of_row tea_row)),
        new_session (mkDB [alice_row] [milk_row; tea_row]) [])
  /\ fst (get_item_by_id 2
            (new_session (mkDB [alice_row] [milk_row; tea_row]) []))
     = Ok (Some (ItemSchema_of_row tea_row)).
Proof.
  split; [split; reflexivity|]. split; [reflexivity|].
  destruct (create_item_then_get (new_session sample_db [])
              (new_session (mkDB [alice_row] [milk_row; tea_row]) []) tea
              (ItemSchema_of_row tea_row) (conj eq_refl eq_refl) eq_refl
              eq_refl)
    as (row & Hrow & _ & _ & Hget).
  destruct row as [i tn uid ed fd]. inversion Hrow; subst. exact Hget.
Defined.

(** X8. If a [create_item] succeeds on a store without faults, then with
    the commit succeeding and the refresh after it failing the same call
    answers with no item although the new row is committed: the rollback of
    the failure branch comes after the commit. *)
Theorem create_item_refresh_fault (c : DB) (fs : list bool)
  (it created : ItemSchema.t) (s1 : Session) :
  create_item it (new_session c []) = (Ok (Some created), s1) ->
  create_item it (new_session c (false :: true :: fs))
  = (Ok None, new_session (committed s1) fs)
  /\ committed s1 <> c.
Proof.
  intros H. unfold create_item, create_item_on, new_session in *.
  rewrite ItemModel_init_dump in *.
  remember (if_set _ "item_id" _) as oid.
  remember (if_set _ "task_name" _) as otn.
  remember (if_set _ "user_id" _) as ouid.
  remember (if_set _ "expire_date" _) as oed.
  remember (if_set _ "finished_date" _) as ofd.
  clear Heqoid Heqotn Heqouid Heqoed Heqofd.
  unfold_monad. simpl in *.
  match type of H with
  | context [has_item ?d0 ?pk] =>
      remember pk as rowid eqn:Epk; clear Epk;
      destruct (has_item d0 rowid) eqn:Eh
  end; simpl in H; try discriminate.
  destruct otn as [tn|], ouid as [uid|], oed as [ed|]; simpl in *;
    try discriminate.
  pose proof Eh as Eh'. unfold has_item in Eh'.
  apply existsb_false_filter in Eh'.
  rewrite filter_app, Eh' in H. simpl in H. rewrite Z.eqb_refl in H.
  simpl in H.
  match type of H with
  | context [ItemSchema_model_validate ?o] =>
      destruct (ItemSchema_model_validate o) as [v|] eqn:Ev
  end; simpl in H; try discriminate.
  inversion H; subst; clear H. simpl. split; [reflexivity|].
  intros Heq. apply (f_equal (fun d => List.length (todo_item d))) in Heq.
  simpl in Heq. rewrite List.length_app in Heq. simpl in Heq. lia.
Qed.

Lemma create_item_refresh_fault_witness :
  fst (create_item tea (new_session sample_db [false; true])) = Ok None
  /\ todo_item (committed (snd (create_item tea
                                  (new_session sample_db [false; true]))))
     = [milk_row; tea_row].
Proof.
  destruct (create_item_refresh_fault sample_db [] tea _ _ eq_refl) as [H _].
  rewrite H. split; reflexivity.
Defined.

(** X9. A [create_item] whose candidate sets an [item_id] that a stored
    item already has answers with no item and leaves the committed rows as
    they were, on every clean session. *)
Theorem create_item_existing_id_rejected (s : Session) (it : ItemSchema.t)
  (n : Z) :
  clean s ->
  mem_string "item_id" (ItemSchema.model_fields_set it) = true ->
  ItemSchema.item_id it = Some n ->
  has_item (committed s) n = true ->
  fst (create_item it s) = Ok None
  /\ committed (snd (create_item it s)) = committed s.
Proof.
  destruct s as [d c p fs]. intros [Hp Hd] Hset Hid Hh. simpl in *. subst.
  unfold create_item, create_item_on. rewrite ItemModel_init_dump.
  assert (if_set (ItemSchema.model_fields_set it) "item_id"
            (ItemSchema.item_id it) = Some n) as Hpk
      by (unfold if_set; rewrite Hset; exact Hid).
  rewrite !Hpk.
  remember (if_set _ "task_name" _) as otn.
  remember (if_set _ "user_id" _) as ouid.
  remember (if_set _ "expire_date" _) as oed.
  remember (if_set _ "finished_date" _) as ofd.
  clear Heqotn Heqouid Heqoed Heqofd.
  unfold_monad. simpl.
  destruct fs as [|[] fs]; simpl; rewrite ?Hh; simpl; repeat split.
Qed.

Lemma create_item_existing_id_rejected_witness :
  clean (new_session sample_db [])
  /\ fst (create_item milk (new_session sample_db [])) = Ok None.
Proof.
  split; [split; reflexivity|].
  destruct (create_item_existing_id_rejected (new_session sample_db []) milk 1
              (conj eq_refl eq_refl) eq_refl eq_refl eq_refl) as [H _].
  exact H.
Defined.

(** ** Deleting an item *)

Lemma filter_filter_neg {A} (f : A -> bool) (l : list A) :
  filter f (filter (fun r => negb (f r)) l) = [].
Proof.
  induction l as [|x l IH]; simpl; [reflexivity|].
  destruct (f x) eqn:E; simpl; [exact IH|]. rewrite E. exact IH.
Qed.

Lemma filter_filter_other {A} (f g : A -> bool) (l : list A) :
  (forall x, g x = true -> f x = false) ->
  filter g (filter (fun r => negb (f r)) l) = filter g l.
Proof.
  intros H. induction l as [|x l IH]; simpl; [reflexivity|].
  destruct (f x) eqn:E; simpl.
  - destruct (g x) eqn:G; [apply H in G; congruence|exact IH].
  - rewrite IH. reflexivity.
Qed.

Lemma get_item_by_id_none (s : Session) (item_id : Z) :
  clean s ->
  filter (by_item_id item_id) (todo_item (committed s)) = [] ->
  fst (get_item_by_id item_id s) = Ok None.
Proof.
  destruct s as [d c p fs]. intros [Hp Hd] Hf. simpl in *. subst.
  unfold get_item_by_id. unfold_monad. simpl.
  destruct fs as [|[] fs]; simpl; rewrite ?Hf; reflexivity.
Qed.

Lemma delete_item_none (s : Session) (item_id : Z) :
  clean s ->
  filter (by_item_id item_id) (todo_item (committed s)) = [] ->
  fst (delete_item item_id s) = Ok false.
Proof.
  destruct s as [d c p fs]. intros [Hp Hd] Hf. simpl in *. subst.
  unfold delete_item, delete_item_on. unfold_monad. simpl.
  destruct fs as [|[] fs]; simpl; rewrite ?Hf; reflexivity.
Qed.

(** X10. After a [delete_item] that answered [true] on a clean session,
    [get_item_by_id] on that id finds nothing, a second [delete_item] answers
    [false], the rows of every other id are the same as before and no user
    row has changed. *)
Theorem delete_item_then_get (s s' : Session) (item_id : Z) :
  clean s ->
  delete_item item_id s = (Ok true, s') ->
  fst (get_item_by_id item_id s') = Ok None
  /\ fst (delete_item item_id s') = Ok false
  /\ (forall other,
         other <> item_id ->
         filter (by_item_id other) (todo_item (committed s'))
         = filter (by_item_id other) (todo_item (committed s)))
  /\ todo_user (committed s') = todo_user (committed s).
Proof.
  intros Hc H.
  destruct (delete_item_contract s item_id Hc) as (b & s1 & H1 & Hc1 & Ht & _).
  rewrite H in H1. inversion H1; subst b s1. clear H1.
  destruct (Ht eq_refl) as (_ & Hdb).
  assert (filter (by_item_id item_id) (todo_item (committed s')) = []) as Hnone
      by (rewrite Hdb; simpl; apply filter_filter_neg).
  repeat split.
  - apply get_item_by_id_none; assumption.
  - apply delete_item_none; assumption.
  - intros other Hne. rewrite Hdb. simpl. apply filter_filter_other.
    intros x Hx. unfold by_item_id in *. apply Z.eqb_eq in Hx.
    apply Z.eqb_neq. congruence.
  - rewrite Hdb. reflexivity.
Qed.

Lemma delete_item_then_get_witness :
  clean (new_session sample_db [])
  /\ exists s',
      delete_item 1 (new_session sample_db []) = (Ok true, s')
      /\ fst (get_item_by_id 1 s') = Ok None
      /\ fst (delete_item 1 s') = Ok false.
Proof.
  split; [split; reflexivity|].
  eexists. split; [reflexivity|].
  destruct (delete_item_then_get (new_session sample_db []) _ 1
              (conj eq_refl eq_refl) eq_refl) as (H1 & H2 & _).
  split; assumption.
Defined.

(** ** The completion date of one item *)

Lemma replace_item_other (c : DB) (pk other : Z) (row : ItemRow.t) :
  ItemRow.item_id row = pk ->
  other <> pk ->
  filter (by_item_id other) (todo_item (replace_item pk row c))
  = filter (by_item_id other) (todo_item c).
Proof.
  intros Hid Hne. unfold replace_item, by_item_id. simpl.
  induction (todo_item c) as [|x l IH]; simpl; [reflexivity|].
  destruct (ItemRow.item_id x =? pk) eqn:E.
  - apply Z.eqb_eq in E.
    assert ((ItemRow.item_id row =? other) = false) as E1
        by (apply Z.eqb_neq; congruence).
    assert ((ItemRow.item_id x =? other) = false) as E2
        by (apply Z.eqb_neq; congruence).
    rewrite E1, E2. exact IH.
  - destruct (ItemRow.item_id x =? other); rewrite IH; reflexivity.
Qed.

Lemma get_item_by_id_quiet (c : DB) (item_id : Z) :
  fst (get_item_by_id item_id (new_session c []))
  = match filter (by_item_id item_id) (todo_item c) with
    | [] => Ok None
    | [row] =>
        match ItemSchema_model_validate (ItemModel_of_row row) with
        | Ok v => Ok (Some v)
        | Raise _ => Ok None
        end
    | _ :: _ :: _ => Ok None
    end.
Proof.
  unfold get_item_by_id, new_session. unfold_monad. simpl.
  destruct (filter (by_item_id item_id) (todo_item c)) as [|row [|r2 rest]];
    simpl; try reflexivity.
  destruct (ItemSchema_model_validate (ItemModel_of_row row)); reflexivity.
Qed.

(** X11. On a clean session without store faults, a successful
    [update_finished_date] leaves the users and the number of items as they
    were, and [get_item_by_id] answers for every other id as before. *)
Theorem update_finished_date_only_that_item (s s' : Session) (item_id : Z)
  (fd : option datetime) (r : ItemSchema.t) :
  clean s ->
  faults s = [] ->
  update_finished_date item_id fd s = (Ok (Some r), s') ->
  todo_user (committed s') = todo_user (committed s)
  /\ List.length (todo_item (committed s'))
     = List.length (todo_item (committed s))
  /\ (forall other,
         other <> item_id ->
         fst (get_item_by_id other s') = fst (get_item_by_id other s)).
Proof.
  intros Hc Hf H.
  rewrite (quiet_new_session s (conj Hc Hf)) in *.
  simpl committed. set (c := committed s) in *. clearbody c.
  assert (exists row it,
             filter (by_item_id item_id) (todo_item c) = [row]
             /\ ItemSchema_model_validate (ItemModel_of_row row) = Ok it)
    as (row & it & Ef & Hv).
  { pose proof (get_item_by_id_quiet c item_id) as Hg.
    unfold update_finished_date, update_finished_date_on, new_session in H.
    unfold_monad.
    simpl in H.
    destruct (filter (by_item_id item_id) (todo_item c))
      as [|row [|r2 rest]] eqn:Ef; simpl in H; try discriminate.
    destruct (ItemSchema_model_validate (ItemModel_of_row row)) as [it|e] eqn:Ev.
    - exists row, it. auto.
    - exfalso.
      pose proof (by_item_id_head _ _ _ _ Ef) as Hid. subst item_id.
      assert (has_item c (ItemRow.item_id row) = true) as Hh
          by (unfold has_item; eapply filter_cons_existsb; exact Ef).
      rewrite Hh in H. simpl in H. rewrite Z.eqb_refl in H. simpl in H.
      unfold by_item_id in Ef.
      rewrite (filter_replace
                 (fun r => ItemRow.item_id r =? ItemRow.item_id row)
                 (ItemRow.mk (ItemRow.item_id row) (ItemRow.task_name row)
                    (ItemRow.user_id row) (ItemRow.expire_date row) fd))
        in H by (simpl; apply Z.eqb_refl).
      rewrite Ef in H. simpl in H.
      unfold ItemSchema_model_validate in H, Ev. simpl in H, Ev.
      destruct (_ && _); simpl in H; discriminate. }
  rewrite (update_finished_date_quiet c item_id fd row it Ef Hv) in H.
  inversion H; subst; clear H. simpl.
  pose proof (by_item_id_head _ _ _ _ Ef) as Hid.
  repeat split.
  - apply length_map.
  - intros other Hne.
    rewrite !get_item_by_id_quiet.
    rewrite (replace_item_other c item_id other) by (simpl; auto).
    reflexivity.
Qed.

Lemma update_finished_date_only_that_item_witness :
  clean (new_session (mkDB [alice_row] [milk_row; tea_row]) [])
  /\ exists r s',
      update_finished_date 1 (Some 5000)
        (new_session (mkDB [alice_row] [milk_row; tea_row]) [])
      = (Ok (Some r), s')
      /\ fst (get_item_by_id 2 s')
         = fst (get_item_by_id 2
                  (new_session (mkDB [alice_row] [milk_row; tea_row]) [])).
Proof.
  split; [split; reflexivity|].
  eexists. eexists. split; [reflexivity|].
  destruct (update_finished_date_only_that_item
              (new_session (mkDB [alice_row] [milk_row; tea_row]) []) _ 1
              (Some 5000) _ (conj eq_refl eq_refl) eq_refl eq_refl)
    as (_ & _ & H).
  apply H. discriminate.
Defined.

(** ** Creating users *)

Lemma filter_and_empty {A} (f g : A -> bool) (l : list A) :
  filter f l = [] -> filter (fun r => f r && g r) l = [].
Proof.
  induction l as [|x l IH]; simpl; [reflexivity|].
  destruct (f x); simpl; [discriminate|]. exact IH.
Qed.

(** X12. On a clean session without store faults, a [create_user] that
    answers with a user has appended one row holding the three fields of the
    candidate, under a [user_id] no stored user had; the answer holds those
    fields, and both [get_user_by_id] and [get_user_by_id_and_password] with
    the candidate's credentials then return it. *)
Theorem create_user_then_lookup (s s' : Session) (u created : UserSchema.t) :
  clean s ->
  faults s = [] ->
  create_user u s = (Ok (Some created), s') ->
  created = UserSchema_of_row (UserRow_of_schema u)
  /\ has_user (committed s) (UserSchema.user_id u) = false
  /\ committed s'
     = mkDB (todo_user (committed s) ++ [UserRow_of_schema u])
         (todo_item (committed s))
  /\ fst (get_user_by_id (UserSchema.user_id u) s') = Ok (Some created)
  /\ fst (get_user_by_id_and_password (UserSchema.user_id u)
            (UserSchema.password u) s') = Ok (Some created).
Proof.
  intros Hc Hf H.
  rewrite (quiet_new_session s (conj Hc Hf)) in *.
  simpl committed. set (c := committed s) in *. clearbody c.
  destruct u as [uid n pw ufs].
  unfold create_user, create_user_on, new_session in H. unfold_monad.
  simpl in H.
  destruct (has_user c uid) eqn:Eh; simpl in H; try discriminate.
  pose proof Eh as Eh'. unfold has_user in Eh'.
  apply existsb_false_filter in Eh'.
  rewrite filter_app, Eh' in H. simpl in H. rewrite String.eqb_refl in H.
  simpl in H.
  destruct (UserSchema_model_validate
              (UserModel_of_row (UserRow.mk uid n pw))) as [v|e] eqn:Ev;
    simpl in H; try discriminate.
  inversion H; subst; clear H. simpl.
  pose proof (UserSchema_model_validate_of_row _ _ Ev) as Hv.
  repeat split; auto.
  - unfold get_user_by_id, by_user_id. unfold_monad. simpl.
    rewrite filter_app, Eh'. simpl. rewrite String.eqb_refl. simpl.
    unfold UserRow_of_schema. simpl. rewrite Ev. reflexivity.
  - unfold get_user_by_id_and_password, by_user_id. unfold_monad. simpl.
    rewrite filter_app, (filter_and_empty _ _ _ Eh'). simpl.
    rewrite !String.eqb_refl. simpl.
    unfold UserRow_of_schema. simpl. rewrite Ev. reflexivity.
Qed.

(** X13. Creating a user whose [user_id] is already stored answers with no
    user and leaves the committed rows as they were, on every clean session;
    the registration handler turns this into its 400. *)
Theorem create_user_duplicate_rejected (s : Session) (u : UserSchema.t) :
  clean s ->
  has_user (committed s) (UserSchema.user_id u) = true ->
  fst (create_user u s) = Ok None
  /\ committed (snd (create_user u s)) = committed s
  /\ fst (create_user_endpoint u s)
     = Raise (HTTPException 400 "ユーザー作成に失敗しました").
Proof.
  destruct s as [d c p fs]. intros [Hp Hd] Hh. simpl in *. subst.
  destruct u as [uid n pw ufs]. simpl in Hh.
  unfold create_user_endpoint, create_user, create_user_on. unfold_monad.
  simpl.
  destruct fs as [|[] fs]; simpl; rewrite ?Hh; simpl; repeat split.
Qed.

Lemma create_user_then_lookup_witness :
  clean (new_session sample_db [])
  /\ exists s',
      create_user bob (new_session sample_db []) = (Ok (Some bob), s')
      /\ fst (get_user_by_id_and_password "u2" "q" s') = Ok (Some bob).
Proof.
  split; [split; reflexivity|].
  eexists. split; [reflexivity|].
  destruct (create_user_then_lookup (new_session sample_db []) _ bob bob
              (conj eq_refl eq_refl) eq_refl eq_refl) as (_ & _ & _ & _ & H).
  exact H.
Defined.

Lemma create_user_duplicate_rejected_witness :
  clean (new_session sample_db [])
  /\ fst (create_user alicia (new_session sample_db [])) = Ok None
  /\ committed (snd (create_user alicia (new_session sample_db [])))
     = sample_db.
Proof.
  split; [split; reflexivity|].
  destruct (create_user_duplicate_rejected (new_session sample_db []) alicia
              (conj eq_refl eq_refl) eq_refl) as (H1 & H2 & _).
  split; assumption.
Defined.

(** ** Updating an item *)

Lemma setattrs_dump (row : ItemRow.t) (it : ItemSchema.t) :
  setattrs ItemModel_setattr (ItemModel_of_row row)
    (ItemSchema_model_dump true it)
  = Ok (let m := ItemRow_merge row it 0 in
        ItemModel.mk (update_item_pk (ItemRow.item_id row) it)
          (Some (ItemRow.task_name m)) (Some (ItemRow.user_id m))
          (Some (ItemRow.expire_date m)) (ItemRow.finished_date m)).
Proof.
  destruct it as [i tn uid ed fd fs]. destruct row as [ri rtn ruid red rfd].
  unfold ItemSchema_model_dump, dump_filter, ItemRow_merge, update_item_pk.
  simpl.
  destruct (mem_string "item_id" fs), (mem_string "task_name" fs),
    (mem_string "user_id" fs), (mem_string "expire_date" fs),
    (mem_string "finished_date" fs); simpl;
    destruct i, fd; reflexivity.
Qed.

Lemma filter_replace_pk (l : list ItemRow.t) (pk pk' : Z) (row' : ItemRow.t)
  (x : ItemRow.t) (xs : list ItemRow.t) :
  ItemRow.item_id row' = pk' ->
  (negb (pk' =? pk) && existsb (fun r => ItemRow.item_id r =? pk') l) = false ->
  filter (fun r => ItemRow.item_id r =? pk')
         (map (fun r => if ItemRow.item_id r =? pk then row' else r) l)
  = x :: xs ->
  x = row'.
Proof.
  intros Hid Hc Hf.
  assert (In x (x :: xs)) as Hin by (left; reflexivity).
  rewrite <- Hf in Hin. apply filter_In in Hin. destruct Hin as [Hin Hx].
  apply in_map_iff in Hin. destruct Hin as (r & Hr & Hin).
  destruct (ItemRow.item_id r =? pk) eqn:E; [congruence|].
  subst x. exfalso.
  apply andb_false_iff in Hc. destruct Hc as [Hc|Hc].
  - apply negb_false_iff in Hc. apply Z.eqb_eq in Hc. subst pk'. congruence.
  - assert (existsb (fun r => ItemRow.item_id r =? pk') l = true) as Ht
        by (apply existsb_exists; exists r; auto).
    congruence.
Qed.

Lemma update_item_some (s s' : Session) (item_id : Z)
  (it r : ItemSchema.t) :
  clean s ->
  update_item item_id it s = (Ok (Some r), s') ->
  exists row pk,
    filter (by_item_id item_id) (todo_item (committed s)) = [row]
    /\ update_item_pk item_id it = Some pk
    /\ r = ItemSchema_of_row (ItemRow_merge row it pk)
    /\ committed s'
       = replace_item item_id (ItemRow_merge row it pk) (committed s).
Proof.
  destruct s as [d c p fs]. intros [Hp Hd] H. simpl in *. subst.
  unfold update_item, update_item_on in H. unfold_monad. simpl in H.
  destruct (filter (by_item_id item_id) (todo_item c))
    as [|row [|r2 rest]] eqn:Ef.
  all: destruct fs as [|[] [|[] [|[] fs]]]; simpl in H; try discriminate.
  all: rewrite ?Ef in H; simpl in H; try discriminate.
  all: rewrite setattrs_dump in H; simpl in H; try discriminate.
  all: pose proof (by_item_id_head _ _ _ _ Ef) as Hid; subst item_id.
  all: assert (has_item c (ItemRow.item_id row) = true) as Hh
      by (unfold has_item; eapply filter_cons_existsb; exact Ef).
  all: rewrite Hh in H; simpl in H.
  all: destruct (update_item_pk (ItemRow.item_id row) it) as [pk|] eqn:Epk;
    simpl in H; try discriminate.
  all: destruct (negb (pk =? ItemRow.item_id row) && has_item c pk) eqn:Ec;
    simpl in H; try discriminate.
  all: match type of H with
       | context [filter ?f (map ?g ?l)] =>
           destruct (filter f (map g l)) as [|x xs] eqn:Er
       end; simpl in H; try discriminate.
  all: unfold has_item in Ec.
  all: eapply filter_replace_pk in Er; [subst x|reflexivity|exact Ec].
  all: match type of H with
       | context [ItemSchema_model_validate ?o] =>
           destruct (ItemSchema_model_validate o) as [v|] eqn:Ev
       end; simpl in H; try discriminate.
  all: inversion H; subst; clear H; simpl.
  all: apply (ItemSchema_model_validate_row (ItemRow.mk _ _ _ _ _)) in Ev;
    simpl in Ev.
  all: exists row, pk; repeat split; auto.
Qed.

(** X14. On a clean session, an [update_item] that answers with an item
    found exactly one stored row of that id and has overwritten it with the
    row that takes each set field of the candidate and keeps the stored value
    of each field that is not set; the answer is that row. *)
Theorem update_item_merges (s s' : Session) (item_id : Z)
  (it r : ItemSchema.t) :
  clean s ->
  update_item item_id it s = (Ok (Some r), s') ->
  exists row pk,
    filter (by_item_id item_id) (todo_item (committed s)) = [row]
    /\ update_item_pk item_id it = Some pk
    /\ r = ItemSchema_of_row (ItemRow_merge row it pk)
    /\ todo_item (committed s')
       = map (fun x => if by_item_id item_id x
                       then ItemRow_merge row it pk else x)
             (todo_item (committed s))
    /\ todo_user (committed s') = todo_user (committed s).
Proof.
  intros Hc H.
  destruct (update_item_some s s' item_id it r Hc H)
    as (row & pk & Ef & Epk & Hr & Hdb).
  exists row, pk. rewrite Hdb. repeat split; assumption.
Qed.

Lemma update_item_merges_witness :
  clean (new_session sample_db [])
  /\ exists s',
      update_item 1 tea (new_session sample_db [])
      = (Ok (Some (ItemSchema_of_row
                     (ItemRow.mk 1 "buy tea" "somebody-else" 2000 None))), s')
      /\ todo_item (committed s')
         = [ItemRow.mk 1 "buy tea" "somebody-else" 2000 None].
Proof.
  split; [split; reflexivity|].
  eexists. split; [reflexivity|].
  destruct (update_item_merges (new_session sample_db []) _ 1 tea _
              (conj eq_refl eq_refl) eq_refl)
    as (row & pk & Ef & Epk & _ & Hitems & _).
  inversion Ef; subst row. inversion Epk; subst pk. exact Hitems.
Defined.

(** X15. When an authenticated PUT on an item is answered with an item,
    that item's [user_id] is the [user_id] of the user the bearer token
    resolved to, whatever [user_id] the body carried and whoever owned the
    item before. *)
Theorem updated_item_belongs_to_caller
  (s s' : Session) (credentials : token) (now : datetime) (item_id : Z)
  (item updated : ItemSchema.t) :
  clean s ->
  PUT_items credentials now item_id item s = (Ok updated, s') ->
  exists current_user s1,
    get_current_user credentials now s = (Ok current_user, s1)
    /\ ItemSchema.user_id updated = UserSchema.user_id current_user.
Proof.
  intros Hc H.
  pose proof (get_current_user_rows s credentials now Hc) as Hr.
  unfold PUT_items, authenticated, bind in H.
  destruct (get_current_user credentials now s) as [[u|e] s1] eqn:Eu;
    [|discriminate].
  simpl in Hr. pose proof (same_rows_clean _ _ Hc Hr) as Hc1.
  exists u, s1. split; [reflexivity|].
  unfold update_item_endpoint, try_except, bind, ret, raise_bad_request,
    raise_not_found, raise in H.
  destruct (update_item item_id
              (ItemSchema_set_user_id item (UserSchema.user_id u)) s1)
    as [[[r|]|e] s2] eqn:Ec; try discriminate.
  inversion H; subst.
  apply (update_item_some s1 s' item_id _ updated Hc1) in Ec.
  destruct Ec as (row & pk & _ & _ & Hr' & _). subst updated. reflexivity.
Qed.

Lemma updated_item_belongs_to_caller_witness :
  clean (new_session sample_db [])
  /\ exists updated s',
      PUT_items (create_access_token "u1" 0) 10 1 tea (new_session sample_db [])
      = (Ok updated, s')
      /\ ItemSchema.user_id updated = "u1".
Proof.
  split; [split; reflexivity|].
  eexists. eexists. split; [reflexivity|].
  destruct (updated_item_belongs_to_caller (new_session sample_db []) _
              (create_access_token "u1" 0) 10 1 tea _ (conj eq_refl eq_refl)
              eq_refl) as (u & s1 & Hu & Hid).
  rewrite Hid. cbv in Hu. inversion Hu. reflexivity.
Defined.


(** ** Handlers on a record that is not there *)

(** X16. On a clean session, when no stored item has the id, and likewise
    when the store fails at the first round trip, the handlers that read,
    delete and finish an item all fail with the 404 whose detail is the
    resource name followed by the fixed suffix, and the committed rows stay
    as they were. *)
Theorem item_handlers_not_found (s : Session) (item_id : Z)
  (fd : option datetime) (u : UserSchema.t) :
  clean s ->
  filter (by_item_id item_id) (todo_item (committed s)) = []
  \/ (exists fs, faults s = true :: fs) ->
  fst (read_item_endpoint item_id u s)
  = Raise (HTTPException 404 "Item not foundが見つかりません")
  /\ fst (delete_item_endpoint item_id u s)
     = Raise (HTTPException 404 "Item not foundが見つかりません")
  /\ fst (finish_item_endpoint item_id fd u s)
     = Raise (HTTPException 404 "Item not foundが見つかりません")
  /\ committed (snd (delete_item_endpoint item_id u s)) = committed s
  /\ committed (snd (finish_item_endpoint item_id fd u s)) = committed s.
Proof.
  destruct s as [d c p fs]. intros [Hp Hd] H. simpl in *. subst.
  unfold read_item_endpoint, delete_item_endpoint, finish_item_endpoint,
    get_item_by_id, delete_item, delete_item_on, update_finished_date,
    update_finished_date_on, raise_not_found.
  unfold_monad. simpl.
  destruct H as [Hf|[fs' Hf]].
  - destruct fs as [|[] fs]; simpl; rewrite ?Hf; simpl; repeat split.
  - subst fs. simpl. repeat split.
Qed.

(** X17. On a clean session, when no stored user has the id, and likewise
    when the store fails at the first round trip, the handlers that read,
    update and delete a user all fail with the 404 of the missing user, and
    the committed rows stay as they were. *)
Theorem user_handlers_not_found (s : Session) (user_id : string)
  (data u : UserSchema.t) :
  clean s ->
  filter (by_user_id user_id) (todo_user (committed s)) = []
  \/ (exists fs, faults s = true :: fs) ->
  fst (read_user_by_id_endpoint user_id u s)
  = Raise (HTTPException 404 "ユーザーが見つかりません")
  /\ fst (update_user_endpoint user_id data u s)
     = Raise (HTTPException 404 "ユーザーが見つかりません")
  /\ fst (delete_user_endpoint user_id u s)
     = Raise (HTTPException 404 "ユーザーが見つかりません")
  /\ committed (snd (update_user_endpoint user_id data u s)) = committed s
  /\ committed (snd (delete_user_endpoint user_id u s)) = committed s.
Proof.
  destruct s as [d c p fs]. intros [Hp Hd] H. simpl in *. subst.
  unfold read_user_by_id_endpoint, update_user_endpoint, delete_user_endpoint,
    get_user_by_id, delete_user, delete_user_on, update_user, update_user_on,
    raise_not_found.
  unfold_monad. simpl.
  destruct H as [Hf|[fs' Hf]].
  - destruct fs as [|[] fs]; simpl; rewrite ?Hf; simpl; repeat split.
  - subst fs. simpl. repeat split.
Qed.

(** X18. When the store fails at the query, the handler that lists the
    users still answers with [success = true], its usual message and no
    data, and the handler that lists the items answers with the empty
    list. *)
Theorem read_users_on_store_fault (s : Session) (fs : list bool)
  (u : UserSchema.t) :
  faults s = true :: fs ->
  fst (read_users_endpoint u s)
  = Ok (mkAPIResponse true "ユーザー一覧を取得しました" None)
  /\ fst (read_items_endpoint u s) = Ok [].
Proof.
  destruct s as [d c p fs']. simpl. intros H. subst.
  split; reflexivity.
Qed.

(** X19. A token issued for a [user_id] that [get_user_by_id] does not
    find, presented before it expires, leaves [get_current_user] with the
    [AttributeError] of the missing [jwt.JWTError], not with the 401 of the
    user that was not found: that 401 is raised inside the [try] and meets
    the same [except] clauses. *)
Theorem unknown_user_token_attribute_error (s : Session) (user_id : string)
  (issued now : datetime) :
  now < issued + timedelta_hours 24 ->
  fst (get_user_by_id user_id s) = Ok None ->
  fst (get_current_user (create_access_token user_id issued) now s)
  = Raise (AttributeError "module 'jwt' has no attribute 'JWTError'").
Proof.
  intros Hlt Hu. unfold timedelta_hours in Hlt.
  unfold get_current_user, create_access_token, jwt_encode, jwt_decode,
    timedelta_hours, try_except, bind, lift.
  rewrite tag_eqb_refl. simpl.
  destruct (Z.leb _ now) eqn:E; [apply Z.leb_le in E; lia|].
  simpl. destruct (get_user_by_id user_id s) as [r s1]. simpl in Hu. subst r.
  reflexivity.
Qed.

Lemma item_handlers_not_found_witness :
  clean (new_session sample_db [])
  /\ fst (read_item_endpoint 7 alice (new_session sample_db []))
     = Raise (HTTPException 404 "Item not foundが見つかりません")
  /\ fst (delete_item_endpoint 1 alice (new_session sample_db [true]))
     = Raise (HTTPException 404 "Item not foundが見つかりません").
Proof.
  split; [split; reflexivity|].
  destruct (item_handlers_not_found (new_session sample_db []) 7 None alice
              (conj eq_refl eq_refl) (or_introl eq_refl)) as (H1 & _).
  destruct (item_handlers_not_found (new_session sample_db [true]) 1 None alice
              (conj eq_refl eq_refl) (or_intror (ex_intro _ [] eq_refl)))
    as (_ & H2 & _).
  split; assumption.
Defined.

Lemma user_handlers_not_found_witness :
  clean (new_session sample_db [])
  /\ fst (update_user_endpoint no_such_user bob alice (new_session sample_db []))
     = Raise (HTTPException 404 "ユーザーが見つかりません").
Proof.
  split; [split; reflexivity|].
  destruct (user_handlers_not_found (new_session sample_db []) no_such_user
              bob alice (conj eq_refl eq_refl) (or_introl eq_refl))
    as (_ & H & _).
  exact H.
Defined.

Lemma read_users_on_store_fault_witness :
  faults (new_session sample_db [true]) = [true]
  /\ fst (read_users_endpoint alice (new_session sample_db [true]))
     = Ok (mkAPIResponse true "ユーザー一覧を取得しました" None).
Proof.
  split; [reflexivity|].
  destruct (read_users_on_store_fault (new_session sample_db [true]) [] alice
              eq_refl) as [H _].
  exact H.
Defined.

Lemma unknown_user_token_attribute_error_witness :
  fst (get_current_user (create_access_token no_such_user 0) 10
         (new_session sample_db []))
  = Raise (AttributeError "module 'jwt' has no attribute 'JWTError'").
Proof.
  apply (unknown_user_token_attribute_error (new_session sample_db [])
           no_such_user 0 10); reflexivity.
Defined.

(** ** Who a token resolves to *)

Lemma opt_eqb_eq {A} (eqb : A -> A -> bool) (x y : option A) :
  (forall a b, eqb a b = true -> a = b) ->
  opt_eqb eqb x y = true -> x = y.
Proof.
  intros H. destruct x, y; simpl; intros E; try discriminate; auto.
  f_equal. auto.
Qed.

Lemma tag_eqb_eq (t1 t2 : tag) : tag_eqb t1 t2 = true -> t1 = t2.
Proof.
  destruct t1 as [k1 [u1 e1]], t2 as [k2 [u2 e2]].
  unfold tag_eqb, claims_eqb. simpl. intros H.
  apply andb_true_iff in H. destruct H as [Hk H].
  apply andb_true_iff in H. destruct H as [Hu He].
  apply String.eqb_eq in Hk.
  apply opt_eqb_eq in Hu; [|intros a b; apply String.eqb_eq].
  apply opt_eqb_eq in He; [|intros a b; apply Z.eqb_eq].
  subst. reflexivity.
Qed.

(** X20. Whenever [get_current_user] answers with a user, the token was
    signed with the secret key under the configured algorithm, its [exp]
    claim, if any, lies after the instant of the request, and the user is the
    one [get_user_by_id] finds for the [user_id] claim of the token. *)
Theorem resolved_user_is_token_user (s s1 : Session) (credentials : token)
  (now : datetime) (u : UserSchema.t) :
  get_current_user credentials now s = (Ok u, s1) ->
  exists c,
    credentials = Jws ALGORITHM c (hmac SECRET_KEY c)
    /\ claim_user_id c = Some (UserSchema.user_id u)
    /\ (forall exp, claim_exp c = Some exp -> now < exp)
    /\ get_user_by_id (UserSchema.user_id u) s = (Ok (Some u), s1).
Proof.
  unfold get_current_user, try_except, bind, lift. intros H.
  destruct credentials as [alg c sig|raw]; simpl in H.
  - destruct (String.eqb alg ALGORITHM) eqn:Ea; simpl in H.
    + apply String.eqb_eq in Ea. subst alg.
      destruct (tag_eqb sig (hmac SECRET_KEY c)) eqn:Et; simpl in H;
        [|discriminate].
      apply tag_eqb_eq in Et. subst sig.
      destruct (claim_exp c) as [exp|] eqn:Ee.
      * destruct (exp <=? now) eqn:El; simpl in H; [discriminate|].
        apply Z.leb_gt in El.
        destruct (claim_user_id c) as [uid|] eqn:Eu; simpl in H;
          [|discriminate].
        destruct (get_user_by_id uid s) as [[[v|]|e] s2] eqn:Eg; simpl in H;
          try discriminate.
        -- inversion H; subst.
           pose proof (get_user_by_id_user_id _ _ _ _ Eg) as Hid. subst uid.
           exists c. repeat split; auto.
           intros exp' Hexp. assert (exp' = exp) by congruence.
           subst exp'. exact El.
        -- unfold except_jwt in H. simpl in H.
           destruct (isinstance e cls_ExpiredSignatureError); discriminate.
      * destruct (claim_user_id c) as [uid|] eqn:Eu; simpl in H;
          [|discriminate].
        destruct (get_user_by_id uid s) as [[[v|]|e] s2] eqn:Eg; simpl in H;
          try discriminate.
        -- inversion H; subst.
           pose proof (get_user_by_id_user_id _ _ _ _ Eg) as Hid. subst uid.
           exists c. repeat split; auto.
           intros exp' Hexp. congruence.
        -- unfold except_jwt in H. simpl in H.
           destruct (isinstance e cls_ExpiredSignatureError); discriminate.
    + discriminate.
  - discriminate.
Qed.

Lemma resolved_user_is_token_user_witness :
  exists c,
    create_access_token "u1" 0 = Jws ALGORITHM c (hmac SECRET_KEY c)
    /\ claim_user_id c = Some "u1".
Proof.
  destruct (resolved_user_is_token_user (new_session sample_db [])
              (new_session sample_db []) (create_access_token "u1" 0) 10 alice
              eq_refl) as (c & Hc & Hu & _).
  exists c. split; assumption.
Defined.

(** ** Deleting a user *)

(** X21. After a [delete_user] that answered [true] on a clean session,
    [get_user_by_id] on that id finds nothing, a login with that id fails
    with the 400 of a failed authentication whatever the password, and a
    second [delete_user] answers [false]. *)
Theorem delete_user_then_lookup (s s' : Session) (user_id password : string)
  (utcnow : datetime) :
  clean s ->
  delete_user user_id s = (Ok true, s') ->
  fst (get_user_by_id user_id s') = Ok None
  /\ fst (read_user_by_id_and_password_endpoint user_id password utcnow s')
     = Raise (HTTPException 400 "認証失敗")
  /\ fst (delete_user user_id s') = Ok false.
Proof.
  intros Hc H.
  destruct (delete_user_contract s user_id Hc) as (b & s1 & H1 & Hc1 & Ht & _).
  rewrite H in H1. inversion H1; subst b s1. clear H1.
  destruct (Ht eq_refl) as (_ & _ & Hdb).
  assert (filter (by_user_id user_id) (todo_user (committed s')) = []) as Hnone.
  { rewrite Hdb. simpl. clear.
    induction (todo_user (committed s)) as [|x l IH]; simpl; [reflexivity|].
    destruct (by_user_id user_id x) eqn:E; simpl; [exact IH|].
    rewrite E. exact IH. }
  assert (filter (fun r => by_user_id user_id r
                           && String.eqb (UserRow.password r) password)
                 (todo_user (committed s')) = []) as Hboth.
  { clear - Hnone. induction (todo_user (committed s')) as [|x l IH];
      simpl in *; [reflexivity|].
    destruct (by_user_id user_id x); simpl; [discriminate|]. auto. }
  clear Hdb Ht H.
  destruct s' as [d c p fs]. destruct Hc1 as [Hp Hd]. simpl in *. subst.
  unfold read_user_by_id_and_password_endpoint, get_user_by_id_and_password,
    get_user_by_id, delete_user, delete_user_on, raise_bad_request.
  unfold_monad. simpl.
  destruct fs as [|[] fs]; simpl; rewrite ?Hnone, ?Hboth; simpl;
    repeat split.
Qed.

Lemma delete_user_then_lookup_witness :
  clean (new_session lonely_db [])
  /\ exists s',
      delete_user "u1" (new_session lonely_db []) = (Ok true, s')
      /\ fst (read_user_by_id_and_password_endpoint "u1" "p" 0 s')
         = Raise (HTTPException 400 "認証失敗").
Proof.
  split; [split; reflexivity|].
  eexists. split; [reflexivity|].
  destruct (delete_user_then_lookup (new_session lonely_db []) _ "u1" "p" 0
              (conj eq_refl eq_refl) eq_refl) as (_ & H & _).
  exact H.
Defined.
